(** * gfp-doctor: the package.json rule registry and its runner

    A shallow embedding of [lib/examine-package.js]: the fourteen predicates
    of the [package.json] registry, the registry itself, and the exported
    function that looks for the manifest, parses it and hands it to the
    runner.

    JavaScript features the file relies on are written out explicitly:
    - a value is [undefined], [null], a boolean, a number, a string, an array
      or an object (the shapes [JSON.parse] produces, plus [undefined]);
    - [if (e)] and [a && b] go through truthiness;
    - reading a property of [undefined] or [null], and calling something that
      is not a function, throw a [TypeError];
    - a function that falls off its end returns [undefined]. *)

From Stdlib Require Import ZArith String Ascii.
From stdpp Require Import gmap strings list fin_maps.
Local Open Scope string_scope.

(** ** Values *)

(** Numbers are kept as integers: the predicates only ever test a number for
    truthiness. *)
#[warnings="-register-all"]
Inductive JSValue : Type :=
  | JUndefined
  | JNull
  | JBool (b : bool)
  | JNumber (n : Z)
  | JString (s : string)
  | JArray (xs : list JSValue)
  | JObject (props : gmap string JSValue).

Definition JTrue : JSValue := JBool true.
Definition JFalse : JSValue := JBool false.

(** ToBoolean: [undefined], [null], [false], [0] and the empty string are
    falsy; every array and every object (empty ones too) is truthy. *)
Definition truthy (v : JSValue) : bool :=
  match v with
  | JUndefined | JNull => false
  | JBool b => b
  | JNumber n => negb (n =? 0)%Z
  | JString s => negb (String.eqb s "")
  | JArray _ | JObject _ => true
  end.

(** ** Completions: a normal value or a thrown error *)

Inductive Error : Type :=
  | TypeError
  | SyntaxError
  | IOError.

Inductive Completion (A : Type) : Type :=
  | Normal (a : A)
  | Throw (e : Error).
Arguments Normal {A} a.
Arguments Throw {A} e.

#[export] Instance completion_ret : MRet Completion := fun A a => Normal a.

#[export] Instance completion_bind : MBind Completion := fun A B k c =>
  match c with
  | Normal a => k a
  | Throw e => Throw e
  end.

(** [a && b]: [b] is evaluated only when [a] is truthy, and the value of the
    expression is the value of the operand evaluated last. *)
Definition js_and (a : Completion JSValue) (b : Completion JSValue) : Completion JSValue :=
  x ← a; if truthy x then b else Normal x.

(** [a || b] *)
Definition js_or (a : Completion JSValue) (b : Completion JSValue) : Completion JSValue :=
  x ← a; if truthy x then Normal x else b.

(** [!a] *)
Definition js_not (a : Completion JSValue) : Completion JSValue :=
  x ← a; Normal (JBool (negb (truthy x))).

(** ** Property access and the two string/array methods used

    [get v k] is [v[k]] for the keys the source reads ([devDependencies],
    [scripts], [packagePath] and the package and script names), none of which
    is a property of a built-in prototype: on an object it is the own
    property or [undefined], on a boolean, number, string or array it is
    [undefined], and on [undefined] or [null] it throws. *)
Definition get (v : JSValue) (k : string) : Completion JSValue :=
  match v with
  | JUndefined | JNull => Throw TypeError
  | JObject props => Normal (default JUndefined (props !! k))
  | _ => Normal JUndefined
  end.

(** [String.prototype.includes] *)
Definition str_includes (s sub : string) : bool :=
  match String.index 0 sub s with
  | Some _ => true
  | None => false
  end.

(** [String.prototype.indexOf] *)
Definition str_indexOf (s sub : string) : Z :=
  match String.index 0 sub s with
  | Some i => Z.of_nat i
  | None => (-1)%Z
  end.

(** Strict equality of a value with a string, as [Array.prototype.indexOf]
    and [includes] apply it to their argument. *)
Definition is_string (sub : string) (v : JSValue) : bool :=
  match v with
  | JString s => String.eqb s sub
  | _ => false
  end.

Fixpoint arr_indexOf_from (i : Z) (xs : list JSValue) (sub : string) : Z :=
  match xs with
  | [] => (-1)%Z
  | x :: xs' => if is_string sub x then i else arr_indexOf_from (i + 1) xs' sub
  end.

(** [v.indexOf(sub)]: strings and arrays have the method; on anything else
    [v.indexOf] is [undefined] (or, on an object with such a key, a JSON
    value), and the call throws. *)
Definition call_indexOf (v : JSValue) (sub : string) : Completion Z :=
  match v with
  | JString s => Normal (str_indexOf s sub)
  | JArray xs => Normal (arr_indexOf_from 0 xs sub)
  | _ => Throw TypeError
  end.

(** [v.includes(sub)] *)
Definition call_includes (v : JSValue) (sub : string) : Completion JSValue :=
  match v with
  | JString s => Normal (JBool (str_includes s sub))
  | JArray xs => Normal (JBool (existsb (is_string sub) xs))
  | _ => Throw TypeError
  end.

(** ** The version comparator

    [semver] is an npm dependency, not part of this repository; the
    predicates are written against its two entry points.  [ltr] may throw (on
    a range it cannot parse). *)
Class Semver : Type := {
  satisfies : string -> JSValue -> Completion JSValue;
  ltr : string -> JSValue -> Completion JSValue
}.

(** ** The predicates (lines 134-270) *)

Section Predicates.
Context {semver : Semver}.

Definition notUsingStashGfpEslintConfig (json : JSValue) : Completion JSValue :=
  c ← js_and (get json "devDependencies")
              (js_not (d ← get json "devDependencies"; get d "gfp-eslint-config"));
  if truthy c then Normal JTrue
  else Normal JUndefined.

Definition missingEslintConfigGfp (json : JSValue) : Completion JSValue :=
  c ← js_and (get json "devDependencies")
              (d ← get json "devDependencies"; get d "eslint-config-gfp");
  if truthy c then Normal JTrue
  else Normal JUndefined.

Definition notUsingStashAngularModuleNoDeps (json : JSValue) : Completion JSValue :=
  c ← js_and (get json "devDependencies")
              (js_not (d ← get json "devDependencies"; get d "angular-module-no-deps"));
  if truthy c then Normal JTrue
  else
    d ← get json "devDependencies";
    v ← get d "angular-module-no-deps";
    i ← call_indexOf v "stash.mrgreen.zone";
    if negb (i =? -1)%Z then Normal JFalse
    else Normal JTrue.

Definition usingDocumentationJs (json : JSValue) : Completion JSValue :=
  c ← js_and (get json "devDependencies")
              (d ← get json "devDependencies"; get d "documentation");
  if truthy c then Normal JTrue
  else Normal JUndefined.

Definition hasNpmLintScript (json : JSValue) : Completion JSValue :=
  c ← js_and (get json "scripts")
              (s ← get json "scripts"; get s "lint");
  if truthy c then Normal JTrue
  else Normal JUndefined.

Definition shouldUsePhantomjsPrebuilt (json : JSValue) : Completion JSValue :=
  d ← get json "devDependencies";
  if truthy d then
    p ← (d1 ← get json "devDependencies"; get d1 "phantomjs");
    if truthy p then Normal JFalse
    else
      q ← (d2 ← get json "devDependencies"; get d2 "phantomjs-prebuilt");
      if truthy q then Normal JTrue
      else Normal JUndefined
  else Normal JUndefined.

Definition shouldUsePhantomjsLauncher1 (json : JSValue) : Completion JSValue :=
  d ← get json "devDependencies";
  if truthy d then
    p ← (d1 ← get json "devDependencies"; get d1 "karma-phantomjs-launcher");
    if truthy p then
      range ← (d2 ← get json "devDependencies"; get d2 "karma-phantomjs-launcher");
      satisfies "1.0.0" range
    else Normal JUndefined
  else Normal JUndefined.

Definition shouldUsePrepushHooks (json : JSValue) : Completion JSValue :=
  c ← js_and (get json "devDependencies")
              (d ← get json "devDependencies"; get d "husky");
  if truthy c then
    c' ← js_and (get json "scripts")
                 (s ← get json "scripts"; get s "prepush");
    if truthy c' then Normal JTrue
    else Normal JUndefined
  else Normal JUndefined.

Definition shouldUsePublicRequirePolyfill (json : JSValue) : Completion JSValue :=
  c ← js_and (get json "devDependencies")
              (d ← get json "devDependencies"; get d "require-polyfill");
  if truthy c then
    v ← (d ← get json "devDependencies"; get d "require-polyfill");
    b ← call_includes v "ssh://";
    if truthy b then Normal JFalse
    else Normal JTrue
  else Normal JTrue.

Definition shouldUseEslintConfigGfp300 (json : JSValue) : Completion JSValue :=
  d ← get json "devDependencies";
  if truthy d then
    p ← (d1 ← get json "devDependencies"; get d1 "eslint-config-gfp");
    if truthy p then
      range ← (d2 ← get json "devDependencies"; get d2 "eslint-config-gfp");
      ltr "2.9.9" range
    else Normal JUndefined
  else Normal JUndefined.

Definition shouldRunGfpDoctorPostInstall (json : JSValue) : Completion JSValue :=
  c ← js_and (js_and (get json "scripts")
                      (s ← get json "scripts"; get s "postinstall"))
              (s ← get json "scripts";
               p ← get s "postinstall";
               call_includes p "gfp-doctor");
  if truthy c then Normal JTrue
  else Normal JUndefined.

Definition shouldUseKarma170 (json : JSValue) : Completion JSValue :=
  d ← get json "devDependencies";
  if truthy d then
    p ← (d1 ← get json "devDependencies"; get d1 "karma");
    if truthy p then
      range ← (d2 ← get json "devDependencies"; get d2 "karma");
      ltr "1.6.9" range
    else Normal JUndefined
  else Normal JUndefined.

Definition shouldUseKarmaCoverage110 (json : JSValue) : Completion JSValue :=
  d ← get json "devDependencies";
  if truthy d then
    p ← (d1 ← get json "devDependencies"; get d1 "karma-coverage");
    if truthy p then
      range ← (d2 ← get json "devDependencies"; get d2 "karma-coverage");
      ltr "1.0.9" range
    else Normal JUndefined
  else Normal JUndefined.

Definition shouldUseKarmaJasmine110 (json : JSValue) : Completion JSValue :=
  d ← get json "devDependencies";
  if truthy d then
    p ← (d1 ← get json "devDependencies"; get d1 "karma-jasmine");
    if truthy p then
      range ← (d2 ← get json "devDependencies"; get d2 "karma-jasmine");
      ltr "1.0.9" range
    else Normal JUndefined
  else Normal JUndefined.

End Predicates.

(** ** The registry (lines 10-104) *)

(** A rule object: the three declared fields and [passed], which the runner
    sets ([None] while the property does not exist).  A predicate is called
    with the document and the options. *)
Record Rule : Type := {
  desc : string;
  errorMsg : string;
  fn : JSValue -> JSValue -> Completion JSValue;
  passed : option JSValue
}.

(** The object bound to the module-level constant [rulesConf]; [skipped] is
    [false] while the property does not exist. *)
Record RuleSet : Type := {
  name : string;
  rules : list Rule;
  skipped : bool
}.

Definition mkRule (d e : string) (f : JSValue -> Completion JSValue) : Rule :=
  {| desc := d; errorMsg := e; fn := fun json _ => f json; passed := None |}.

(** The double-quote and line-feed characters of the string literals. *)
Definition dq : string := String (ascii_of_nat 34) EmptyString.
Definition nl : string := String (ascii_of_nat 10) EmptyString.

Definition rulesConf {semver : Semver} : RuleSet := {|
  name := "package.json";
  rules := [
    mkRule "using public npm version of gfp eslint config"
      ("remove " ++ dq ++ "gfp-eslint-config" ++ dq ++ " from package.json and run " ++ dq
       ++ "npm install --save-dev eslint eslint-config-gfp" ++ dq)
      notUsingStashGfpEslintConfig;
    mkRule "using eslint-config-gfp"
      ("run " ++ dq ++ "npm install --save-dev eslint-config-gfp" ++ dq)
      missingEslintConfigGfp;
    mkRule "using public npm version of angular-module-no-deps"
      ("remove " ++ dq ++ "angular-module-no-deps" ++ dq ++ " from package.json and run "
       ++ dq ++ "npm install --save-dev angular-module-no-deps" ++ dq)
      notUsingStashAngularModuleNoDeps;
    mkRule "using documentationjs"
      ("should be using documentationjs to generate JSDoc to README: " ++ dq
       ++ "npm install --save-dev documentation" ++ dq ++ " " ++ nl ++ "then add scripts: "
       ++ nl ++ dq ++ "docs" ++ dq ++ ": " ++ dq ++ "npm run docs:md" ++ dq ++ "," ++ nl ++ dq
       ++ "docs:md" ++ dq ++ ": " ++ dq
       ++ "documentation readme <source files>.js --section 'API'" ++ dq)
      usingDocumentationJs;
    mkRule "has npm script lint"
      ("should have a npm script lint" ++ nl ++ "then add script: " ++ nl ++ dq ++ "lint"
       ++ dq ++ ": " ++ dq ++ "eslint *.js" ++ dq)
      hasNpmLintScript;
    mkRule "should be using phantomjs-prebuilt"
      ("remove phantomjs from package.json, then run " ++ nl
       ++ "npm install --save-dev phantomjs-prebuilt")
      shouldUsePhantomjsPrebuilt;
    mkRule ("should use " ++ dq ++ "karma-phantomjs-launcher" ++ dq ++ " 1 and up")
      ("set " ++ dq ++ "karma-phantomjs-launcher" ++ dq ++ " to use " ++ dq ++ "^1.0.0" ++ dq)
      shouldUsePhantomjsLauncher1;
    mkRule "should use prepush hooks"
      ("run:" ++ nl ++ "npm install --save-dev husky" ++ nl
       ++ "then add the following to npm scripts:" ++ nl ++ dq ++ "prepush" ++ dq ++ ": "
       ++ dq ++ "npm run lint && karma start --single-run" ++ dq)
      shouldUsePrepushHooks;
    mkRule "should use public require-polyfill"
      ("remove require-polyfill from package.json, then run " ++ nl
       ++ "npm install --save-dev require-polyfill" ++ nl)
      shouldUsePublicRequirePolyfill;
    mkRule "should use eslint-config-gfp 3.0.0 and up"
      ("set eslint-config-gfp to use version " ++ dq ++ "^3.0.0" ++ dq ++ " in package.json")
      shouldUseEslintConfigGfp300;
    mkRule "should run gfp-doctor after install"
      ("add the following to npm scripts:" ++ nl ++ dq ++ "postinstall" ++ dq ++ ": " ++ dq
       ++ "gfp-doctor" ++ dq)
      shouldRunGfpDoctorPostInstall;
    mkRule ("should use " ++ dq ++ "karma" ++ dq ++ " 1.7.0 and up")
      ("set " ++ dq ++ "karma" ++ dq ++ " to use " ++ dq ++ "^1.7.0" ++ dq)
      shouldUseKarma170;
    mkRule ("should use " ++ dq ++ "karma-coverage" ++ dq ++ " 1.1.0 and up")
      ("set " ++ dq ++ "karma-coverage" ++ dq ++ " to use " ++ dq ++ "^1.1.0" ++ dq)
      shouldUseKarmaCoverage110;
    mkRule ("should use " ++ dq ++ "karma-jasmine" ++ dq ++ " 1.1.0 and up")
      ("set " ++ dq ++ "karma-coverage" ++ dq ++ " to use " ++ dq ++ "^1.1.0" ++ dq)
      shouldUseKarmaJasmine110
  ];
  skipped := false
|}.

(** The fourteen predicates, in declaration order. *)
Definition predicates {semver : Semver} : list (JSValue -> Completion JSValue) :=
  [ notUsingStashGfpEslintConfig; missingEslintConfigGfp;
    notUsingStashAngularModuleNoDeps; usingDocumentationJs; hasNpmLintScript;
    shouldUsePhantomjsPrebuilt; shouldUsePhantomjsLauncher1;
    shouldUsePrepushHooks; shouldUsePublicRequirePolyfill;
    shouldUseEslintConfigGfp300; shouldRunGfpDoctorPostInstall;
    shouldUseKarma170; shouldUseKarmaCoverage110; shouldUseKarmaJasmine110 ].

(** ** The store

    [rulesConf] is one object, created when the module is loaded and shared
    by every call of the exported function.  Objects live in a heap and are
    passed around by location; [invoked] records, in order, the description
    of every rule whose predicate has been called. *)
Definition loc := positive.

Record World : Type := {
  heap : gmap loc RuleSet;
  invoked : list string
}.

(** The location the constant [rulesConf] is bound to. *)
Definition rulesConf_loc : loc := 1%positive.

(** The world right after the module has been loaded. *)
Definition world0 {semver : Semver} : World :=
  {| heap := {[ rulesConf_loc := rulesConf ]}; invoked := [] |}.

(** A computation that reads and writes the world and may throw. *)
Definition M (A : Type) : Type := World -> Completion A * World.

Definition set_rules (rs : list Rule) (o : RuleSet) : RuleSet :=
  {| name := name o; rules := rs; skipped := skipped o |}.

Definition set_skipped (b : bool) (o : RuleSet) : RuleSet :=
  {| name := name o; rules := rules o; skipped := b |}.

Definition set_passed (v : option JSValue) (r : Rule) : Rule :=
  {| desc := desc r; errorMsg := errorMsg r; fn := fn r; passed := v |}.

(** [o.rules = rs] for the object at [l] *)
Definition assign_rules (l : loc) (rs : list Rule) (w : World) : World :=
  {| heap := alter (set_rules rs) l (heap w); invoked := invoked w |}.

(** ** rules-util.js

    [addSkipped] and [processRules] are imported from [./rules-util.js].
    The exported function is written against this interface. *)
Class RulesUtil : Type := {
  addSkipped : loc -> M loc;
  processRules : loc -> JSValue -> JSValue -> M (list Rule)
}.

(** Modelled from the spec: [rules-util.js] is missing from the sources.
    Section 4.2: if the document is absent the RuleSet is marked as fully
    skipped, no predicate is invoked, and the same RuleSet is returned;
    section 3: when [skipped] is true no rule has an outcome. *)
Definition addSkipped_spec (l : loc) : M loc := fun w =>
  match heap w !! l with
  | None => (Throw TypeError, w)
  | Some o =>
      (Normal l,
       {| heap := <[l := set_skipped true
                          (set_rules (map (set_passed None) (rules o)) o)]> (heap w);
          invoked := invoked w |})
  end.

(** Modelled from the spec: the loop of the runner in [rules-util.js], which
    is missing from the sources.  Section 4.2: each predicate is called once,
    in declaration order, with the document and the options, and its raw
    result is stored as the rule's outcome.  A predicate that throws ends the
    loop with its error, as any JavaScript call does. *)
Fixpoint run_rules (rs : list Rule) (json options : JSValue) (inv : list string)
    : Completion (list Rule) * list string :=
  match rs with
  | [] => (Normal [], inv)
  | r :: rs' =>
      match fn r json options with
      | Throw e => (Throw e, (inv ++ [desc r])%list)
      | Normal v =>
          match run_rules rs' json options (inv ++ [desc r])%list with
          | (Normal out, inv') => (Normal (set_passed (Some v) r :: out), inv')
          | (Throw e, inv') => (Throw e, inv')
          end
      end
  end.

(** Modelled from the spec: [rules-util.js] is missing from the sources.
    Section 4.2: the rules are iterated in declaration order, each predicate
    is invoked with (document, options), the raw result is stored as the
    rule's outcome, and no outcome stops the iteration. *)
Definition processRules_spec (l : loc) (json options : JSValue) : M (list Rule) := fun w =>
  match heap w !! l with
  | None => (Throw TypeError, w)
  | Some o =>
      let '(res, inv) := run_rules (rules o) json options (invoked w) in
      (res, {| heap := heap w; invoked := inv |})
  end.

Definition rules_util_spec : RulesUtil :=
  {| addSkipped := addSkipped_spec; processRules := processRules_spec |}.

(** ** The host: working directory, [path.join] and the file system

    [file p] is [None] when nothing exists at [p]; otherwise it is what
    [JSON.parse(fs.readFileSync(p))] completes with: the parsed document, or
    the error of an unreadable or malformed file. *)
Record Host : Type := {
  cwd : string;
  path_join : string -> string -> string;
  file : string -> option (Completion JSValue)
}.

(** ** The exported function (lines 106-130); logging is left out *)

Section Examine.
Context {util : RulesUtil} (host : Host).

(** [path.join(process.cwd(), options.packagePath || 'package.json')];
    [path.join] rejects an argument that is not a string. *)
Definition packagePath (options : JSValue) : Completion string :=
  p ← js_or (get options "packagePath") (Normal (JString "package.json"));
  match p with
  | JString s => Normal (path_join host (cwd host) s)
  | _ => Throw TypeError
  end.

Definition examine (options : JSValue) : M loc := fun w =>
  match packagePath options with
  | Throw e => (Throw e, w)
  | Normal path =>
      match file host path with
      | None => addSkipped rulesConf_loc w
      | Some (Throw e) => (Throw e, w)
      | Some (Normal json) =>
          match processRules rulesConf_loc json options w with
          | (Throw e, w1) => (Throw e, w1)
          | (Normal rs, w1) => (Normal rulesConf_loc, assign_rules rulesConf_loc rs w1)
          end
      end
  end.

End Examine.

(** ** A reference version comparator

    Modelled from the spec: the [semver] package is not part of the sources.
    Section 6: [satisfies] tells whether a version falls within a range, and
    [ltr] whether it is strictly below every version the range matches, with
    three-part version precedence and caret and tilde prefixes.  The ranges
    covered are a plain version and a version prefixed by a caret, a tilde or
    [>=].  [satisfies] answers [false] on anything it cannot parse; [ltr]
    throws instead. *)
Module SemverRef.

Definition Version : Type := (N * N * N)%type.

Inductive Range : Type :=
  | Exact (v : Version)
  | Caret (v : Version)
  | Tilde (v : Version)
  | AtLeast (v : Version).

Definition digit (c : ascii) : option N :=
  let n := N_of_ascii c in
  if ((48 <=? n) && (n <=? 57))%N then Some (n - 48)%N else None.

Fixpoint parse_digits (s : string) (acc : N) : option N :=
  match s with
  | EmptyString => Some acc
  | String c s' =>
      match digit c with
      | Some d => parse_digits s' (10 * acc + d)%N
      | None => None
      end
  end.

(** A numeric identifier: digits only, not empty, no leading zero. *)
Definition parse_num (s : string) : option N :=
  match s with
  | EmptyString => None
  | String "0"%char (String _ _) => None
  | _ => parse_digits s 0%N
  end.

(** The pieces of [s] between dots; [cur] holds the piece being read, in
    reverse. *)
Fixpoint split_dots (s : string) (cur : string) : list string :=
  match s with
  | EmptyString => [String.rev cur]
  | String c s' =>
      if Ascii.eqb c "."%char then String.rev cur :: split_dots s' EmptyString
      else split_dots s' (String c cur)
  end.

Definition parse_version (s : string) : option Version :=
  match split_dots s EmptyString with
  | [a; b; c] =>
      match parse_num a, parse_num b, parse_num c with
      | Some x, Some y, Some z => Some (x, y, z)
      | _, _, _ => None
      end
  | _ => None
  end.

Definition parse_range (s : string) : option Range :=
  match s with
  | String "^"%char s' => Caret <$> parse_version s'
  | String "~"%char s' => Tilde <$> parse_version s'
  | String ">"%char (String "="%char s') => AtLeast <$> parse_version s'
  | _ => Exact <$> parse_version s
  end.

(** Precedence of three-part versions. *)
Definition lt (v w : Version) : bool :=
  let '(a, b, c) := v in
  let '(x, y, z) := w in
  ((a <? x) || ((a =? x) && ((b <? y) || ((b =? y) && (c <? z)))))%N.

Definition le (v w : Version) : bool := negb (lt w v).

Definition lower (r : Range) : Version :=
  match r with
  | Exact v | Caret v | Tilde v | AtLeast v => v
  end.

(** The first version above the range, when it has one. *)
Definition upper (r : Range) : option Version :=
  match r with
  | Exact _ | AtLeast _ => None
  | Tilde (a, b, _) => Some (a, b + 1, 0)%N
  | Caret (a, b, c) =>
      if (0 <? a)%N then Some (a + 1, 0, 0)%N
      else if (0 <? b)%N then Some (0, b + 1, 0)%N
      else Some (0, 0, c + 1)%N
  end.

Definition matches (v : Version) (r : Range) : bool :=
  match r with
  | Exact w => le w v && le v w
  | _ => le (lower r) v && match upper r with
                           | Some u => lt v u
                           | None => true
                           end
  end.

Definition satisfies (version : string) (range : JSValue) : Completion JSValue :=
  match range with
  | JString s =>
      match parse_version version, parse_range s with
      | Some v, Some r => Normal (JBool (matches v r))
      | _, _ => Normal JFalse
      end
  | _ => Normal JFalse
  end.

(** Is [version] below every version the range matches? *)
Definition ltr (version : string) (range : JSValue) : Completion JSValue :=
  match range with
  | JString s =>
      match parse_version version, parse_range s with
      | Some v, Some r => Normal (JBool (lt v (lower r)))
      | _, _ => Throw TypeError
      end
  | _ => Throw TypeError
  end.

End SemverRef.

Definition semver_ref : Semver :=
  {| satisfies := SemverRef.satisfies; ltr := SemverRef.ltr |}.

(** ** Documents used in the examples *)

Definition obj (kvs : list (string * JSValue)) : JSValue := JObject (list_to_map kvs).

Definition doc_empty : JSValue := obj [].
Definition doc_eslint3 : JSValue :=
  obj [("devDependencies", obj [("eslint-config-gfp", JString "^3.0.0")])].
Definition doc_eslint2 : JSValue :=
  obj [("devDependencies", obj [("eslint-config-gfp", JString "^2.0.0")])].
Definition doc_phantomjs : JSValue :=
  obj [("devDependencies", obj [("phantomjs", JString "1.0.0")])].

(** ** Reading a document in statements

    [section props sect] is the value of [json[sect]] for the document
    [JObject props]; [entry props sect k] is the value declared for [k] in
    the mapping [sect], and [None] when the document has no such mapping or
    the mapping has no such key. *)
Definition section (props : gmap string JSValue) (sect : string) : JSValue :=
  default JUndefined (props !! sect).

Definition entry (props : gmap string JSValue) (sect k : string) : option JSValue :=
  match props !! sect with
  | Some (JObject m) => m !! k
  | _ => None
  end.

(** [sub] occurs in [s]. *)
Definition contains (s sub : string) : Prop :=
  exists pre post : string, s = pre ++ sub ++ post.

(** The outcome of every predicate of the registry, in declaration order. *)
Definition outcomes {semver : Semver} (json : JSValue) : list (Completion JSValue) :=
  map (fun p => p json) predicates.

(** What [json[sect] && json[sect][k]] tests: the declared value when the
    section is a mapping, and something falsy or [undefined] otherwise. *)
Definition lookup_chain (props : gmap string JSValue) (sect k : string) : JSValue :=
  let d := section props sect in
  if truthy d then
    match d with
    | JObject m => default JUndefined (m !! k)
    | _ => JUndefined
    end
  else d.

(** A dependency or script is declared, as the predicates test it: its value
    is there and truthy. *)
Definition declared (props : gmap string JSValue) (sect k : string) : bool :=
  match entry props sect k with
  | Some v => truthy v
  | None => false
  end.

(** The document [props] with the key [k] taken out of the mapping [m] it
    holds under [sect]. *)
Definition without_entry (props : gmap string JSValue) (sect k : string)
    (m : gmap string JSValue) : gmap string JSValue :=
  <[sect := JObject (delete k m)]> props.

(** A host with two manifests next to each other and nothing else. *)
Definition host_example : Host := {|
  cwd := "/repo";
  path_join := fun a b => a ++ "/" ++ b;
  file := fun p =>
    if String.eqb p "/repo/a.json" then Some (Normal doc_eslint3)
    else if String.eqb p "/repo/b.json" then Some (Normal doc_eslint2)
    else None
|}.

Definition options_a : JSValue := obj [("packagePath", JString "a.json")].
Definition options_b : JSValue := obj [("packagePath", JString "b.json")].
Definition options_none : JSValue := obj [].

(** The outcome stored for the rule at position [i] of the object at [l]. *)
Definition outcome_at (w : World) (l : loc) (i : nat) : option JSValue :=
  o ← heap w !! l; r ← rules o !! i; passed r.

(** Independence of runs: two successive runs that return normally return
    different objects, and the second leaves the report of the first as it
    was. *)
Definition fresh_report_per_run {util : RulesUtil} (host : Host) : Prop :=
  forall (o1 o2 : JSValue) (w : World),
    match examine host o1 w with
    | (Normal l1, w1) =>
        match examine host o2 w1 with
        | (Normal l2, w2) => l1 <> l2 /\ heap w2 !! l1 = heap w1 !! l1
        | _ => True
        end
    | _ => True
    end.

(** The rules a runner call completed with, and none if it threw. *)
Definition rules_of (c : Completion (list Rule)) : list Rule :=
  match c with
  | Normal rs => rs
  | Throw _ => []
  end.

(** ** Shapes of documents and values, and groups of predicates *)

(** A document [JSON.parse] can produce that is neither an object nor
    [null]: property reads on it give [undefined]. *)
Definition is_primitive_or_array (v : JSValue) : bool :=
  match v with
  | JBool _ | JNumber _ | JString _ | JArray _ => true
  | _ => false
  end.

(** Values that have the [indexOf] and [includes] methods. *)
Definition has_search_methods (v : JSValue) : bool :=
  match v with
  | JString _ | JArray _ => true
  | _ => false
  end.

(** The predicates that read [json.devDependencies] only, and those that
    read [json.scripts] only ([shouldUsePrepushHooks] reads both). *)
Definition devDependencies_predicates {semver : Semver}
    : list (JSValue -> Completion JSValue) :=
  [ notUsingStashGfpEslintConfig; missingEslintConfigGfp;
    notUsingStashAngularModuleNoDeps; usingDocumentationJs;
    shouldUsePhantomjsPrebuilt; shouldUsePhantomjsLauncher1;
    shouldUsePublicRequirePolyfill; shouldUseEslintConfigGfp300;
    shouldUseKarma170; shouldUseKarmaCoverage110; shouldUseKarmaJasmine110 ].

Definition scripts_predicates : list (JSValue -> Completion JSValue) :=
  [ hasNpmLintScript; shouldRunGfpDoctorPostInstall ].

(** The predicates whose every property read sits behind a truthiness guard
    and that call no method on what they read. *)
Definition guarded_predicates : list (JSValue -> Completion JSValue) :=
  [ notUsingStashGfpEslintConfig; missingEslintConfigGfp; usingDocumentationJs;
    hasNpmLintScript; shouldUsePhantomjsPrebuilt; shouldUsePrepushHooks ].

(** The predicates with no [return false] in their body. *)
Definition pass_only_predicates : list (JSValue -> Completion JSValue) :=
  [ notUsingStashGfpEslintConfig; missingEslintConfigGfp; usingDocumentationJs;
    hasNpmLintScript; shouldUsePrepushHooks; shouldRunGfpDoctorPostInstall ].

(** A host whose only manifest cannot be parsed. *)
Definition host_malformed : Host := {|
  cwd := "/repo";
  path_join := fun a b => a ++ "/" ++ b;
  file := fun p =>
    if String.eqb p "/repo/package.json" then Some (Throw SyntaxError) else None
|}.

(** * Properties *)

(** ** The reference comparator on the ranges of the scenarios *)

Example ref_ltr_3 : SemverRef.ltr "2.9.9" (JString "^3.0.0") = Normal JTrue.
Proof. reflexivity. Qed.
Example ref_ltr_2 : SemverRef.ltr "2.9.9" (JString "^2.0.0") = Normal JFalse.
Proof. reflexivity. Qed.
Example ref_sat : SemverRef.satisfies "1.0.0" (JString "^1.0.0") = Normal JTrue.
Proof. reflexivity. Qed.
Example ref_sat0 : SemverRef.satisfies "1.0.0" (JString "^0.13.0") = Normal JFalse.
Proof. reflexivity. Qed.

(** ** Substring search *)

Lemma substring_prefix (r post : string) :
  substring 0 (String.length r) (r ++ post) = r.
Proof.
  induction r as [|c r IH]; simpl.
  - by destruct post.
  - by rewrite IH.
Qed.

Lemma substring_middle (pre r post : string) :
  substring (String.length pre) (String.length r) (pre ++ r ++ post) = r.
Proof.
  induction pre as [|c pre IH]; [exact (substring_prefix r post) | simpl; exact IH].
Qed.

Lemma substring_at_0 (n : nat) (s r : string) :
  substring 0 n s = r -> String.length r = n -> exists post, s = r ++ post.
Proof.
  revert s r. induction n as [|n IH]; intros s r Hs Hl.
  - destruct r; [|discriminate]. by exists s.
  - destruct s as [|c s]; simpl in Hs; subst r; [discriminate|].
    simpl in Hl. injection Hl as Hl.
    destruct (IH s _ eq_refl Hl) as [post Hpost].
    exists post. change (String c s = String c (substring 0 n s ++ post)). by f_equal.
Qed.

Lemma substring_occurs (m n : nat) (s r : string) :
  substring m n s = r -> String.length r = n -> contains s r.
Proof.
  revert s. induction m as [|m IH]; intros s Hs Hl.
  - destruct (substring_at_0 _ _ _ Hs Hl) as [post ->]. by exists "", post.
  - destruct s as [|c s]; simpl in Hs.
    + subst r. simpl in Hl. subst n. by exists "", "".
    + destruct (IH _ Hs Hl) as (pre & post & ->). by exists (String c pre), post.
Qed.

Lemma str_includes_contains (s sub : string) :
  str_includes s sub = true <-> contains s sub.
Proof.
  unfold str_includes. split.
  - destruct (index 0 sub s) as [m|] eqn:Hi; [|discriminate]. intros _.
    apply index_correct1 in Hi. by eapply substring_occurs.
  - intros (pre & post & ->).
    destruct (index 0 sub (pre ++ sub ++ post)) as [m|] eqn:Hi; [done|].
    destruct sub as [|c sub].
    + by destruct (pre ++ "" ++ post).
    + exfalso. eapply (index_correct3 0 (String.length pre)); eauto using substring_middle.
      lia.
Qed.

Lemma str_indexOf_contains (s sub : string) :
  str_indexOf s sub <> (-1)%Z <-> contains s sub.
Proof.
  rewrite <- str_includes_contains. unfold str_indexOf, str_includes.
  destruct (index 0 sub s); split; intros; try done; lia.
Qed.

(** ** Evaluating a predicate on an object document *)

Lemma get_object (props : gmap string JSValue) (k : string) :
  get (JObject props) k = Normal (section props k).
Proof. reflexivity. Qed.

Lemma section_entry (props m : gmap string JSValue) (sect k : string) :
  props !! sect = Some (JObject m) ->
  section props sect = JObject m /\ entry props sect k = m !! k.
Proof. intros H. unfold section, entry. by rewrite H. Qed.

Lemma js_and_chain (props : gmap string JSValue) (sect k : string) :
  js_and (get (JObject props) sect) (d ← get (JObject props) sect; get d k)
  = Normal (lookup_chain props sect k).
Proof.
  unfold js_and, lookup_chain. rewrite get_object. simpl.
  destruct (truthy (section props sect)) eqn:E; [|done].
  by destruct (section props sect).
Qed.

Lemma lookup_chain_absent (props : gmap string JSValue) (sect k : string) :
  entry props sect k = None -> truthy (lookup_chain props sect k) = false.
Proof.
  unfold entry, lookup_chain, section.
  destruct (props !! sect) as [d|]; simpl; [|done].
  destruct (truthy d) eqn:E; [|done].
  destruct d; try done. by intros ->.
Qed.

Lemma lookup_chain_present (props : gmap string JSValue) (sect k : string) (v : JSValue) :
  entry props sect k = Some v -> lookup_chain props sect k = v.
Proof.
  unfold entry, lookup_chain, section.
  destruct (props !! sect) as [[| |[]|n|s|xs|m]|]; simpl; try done.
  by intros ->.
Qed.

(** Each predicate on an object document, in terms of the values its guards
    test. *)
Section Eval.
Context {semver : Semver} (props : gmap string JSValue).

Local Ltac by_cases :=
  unfold js_not; rewrite ?js_and_chain, ?get_object; simpl;
  unfold lookup_chain;
  repeat match goal with
  | |- context [truthy (section props ?s)] =>
      let E := fresh "E" in
      destruct (truthy (section props s)) eqn:E;
      destruct (section props s); simpl in E |- *; try discriminate E;
      rewrite ?E; simpl; rewrite ?E
  end;
  repeat match goal with
  | |- context [truthy ?v] =>
      let E := fresh "E" in
      destruct (truthy v) eqn:E; simpl; rewrite ?E; simpl
  end;
  try reflexivity.

Lemma eval_notUsingStashGfpEslintConfig :
  notUsingStashGfpEslintConfig (JObject props)
  = Normal (if truthy (section props "devDependencies")
               && negb (truthy (lookup_chain props "devDependencies" "gfp-eslint-config"))
            then JTrue else JUndefined).
Proof. unfold notUsingStashGfpEslintConfig, js_and. by_cases. Qed.

Lemma eval_missingEslintConfigGfp :
  missingEslintConfigGfp (JObject props)
  = Normal (if truthy (lookup_chain props "devDependencies" "eslint-config-gfp")
            then JTrue else JUndefined).
Proof. unfold missingEslintConfigGfp. by_cases. Qed.

Lemma eval_notUsingStashAngularModuleNoDeps :
  notUsingStashAngularModuleNoDeps (JObject props)
  = if truthy (section props "devDependencies") then
      if truthy (lookup_chain props "devDependencies" "angular-module-no-deps") then
        i ← call_indexOf (lookup_chain props "devDependencies" "angular-module-no-deps")
              "stash.mrgreen.zone";
        if negb (i =? -1)%Z then Normal JFalse else Normal JTrue
      else Normal JTrue
    else Throw TypeError.
Proof. unfold notUsingStashAngularModuleNoDeps, js_and. by_cases. Qed.

Lemma eval_usingDocumentationJs :
  usingDocumentationJs (JObject props)
  = Normal (if truthy (lookup_chain props "devDependencies" "documentation")
            then JTrue else JUndefined).
Proof. unfold usingDocumentationJs. by_cases. Qed.

Lemma eval_hasNpmLintScript :
  hasNpmLintScript (JObject props)
  = Normal (if truthy (lookup_chain props "scripts" "lint")
            then JTrue else JUndefined).
Proof. unfold hasNpmLintScript. by_cases. Qed.

Lemma eval_shouldUsePhantomjsPrebuilt :
  shouldUsePhantomjsPrebuilt (JObject props)
  = Normal (if truthy (lookup_chain props "devDependencies" "phantomjs") then JFalse
            else if truthy (lookup_chain props "devDependencies" "phantomjs-prebuilt")
            then JTrue
            else JUndefined).
Proof. unfold shouldUsePhantomjsPrebuilt. by_cases. Qed.

Lemma eval_shouldUsePhantomjsLauncher1 :
  shouldUsePhantomjsLauncher1 (JObject props)
  = if truthy (lookup_chain props "devDependencies" "karma-phantomjs-launcher")
    then satisfies "1.0.0" (lookup_chain props "devDependencies" "karma-phantomjs-launcher")
    else Normal JUndefined.
Proof. unfold shouldUsePhantomjsLauncher1. by_cases. Qed.

Lemma eval_shouldUsePrepushHooks :
  shouldUsePrepushHooks (JObject props)
  = Normal (if truthy (lookup_chain props "devDependencies" "husky")
               && truthy (lookup_chain props "scripts" "prepush")
            then JTrue else JUndefined).
Proof. unfold shouldUsePrepushHooks. by_cases. Qed.

Lemma eval_shouldUsePublicRequirePolyfill :
  shouldUsePublicRequirePolyfill (JObject props)
  = if truthy (lookup_chain props "devDependencies" "require-polyfill") then
      b ← call_includes (lookup_chain props "devDependencies" "require-polyfill") "ssh://";
      if truthy b then Normal JFalse else Normal JTrue
    else Normal JTrue.
Proof. unfold shouldUsePublicRequirePolyfill. by_cases. Qed.

Lemma eval_shouldUseEslintConfigGfp300 :
  shouldUseEslintConfigGfp300 (JObject props)
  = if truthy (lookup_chain props "devDependencies" "eslint-config-gfp")
    then ltr "2.9.9" (lookup_chain props "devDependencies" "eslint-config-gfp")
    else Normal JUndefined.
Proof. unfold shouldUseEslintConfigGfp300. by_cases. Qed.

Lemma eval_shouldRunGfpDoctorPostInstall :
  shouldRunGfpDoctorPostInstall (JObject props)
  = if truthy (lookup_chain props "scripts" "postinstall") then
      b ← call_includes (lookup_chain props "scripts" "postinstall") "gfp-doctor";
      if truthy b then Normal JTrue else Normal JUndefined
    else Normal JUndefined.
Proof. unfold shouldRunGfpDoctorPostInstall, js_and at 1. by_cases. Qed.

Lemma eval_shouldUseKarma170 :
  shouldUseKarma170 (JObject props)
  = if truthy (lookup_chain props "devDependencies" "karma")
    then ltr "1.6.9" (lookup_chain props "devDependencies" "karma")
    else Normal JUndefined.
Proof. unfold shouldUseKarma170. by_cases. Qed.

Lemma eval_shouldUseKarmaCoverage110 :
  shouldUseKarmaCoverage110 (JObject props)
  = if truthy (lookup_chain props "devDependencies" "karma-coverage")
    then ltr "1.0.9" (lookup_chain props "devDependencies" "karma-coverage")
    else Normal JUndefined.
Proof. unfold shouldUseKarmaCoverage110. by_cases. Qed.

Lemma eval_shouldUseKarmaJasmine110 :
  shouldUseKarmaJasmine110 (JObject props)
  = if truthy (lookup_chain props "devDependencies" "karma-jasmine")
    then ltr "1.0.9" (lookup_chain props "devDependencies" "karma-jasmine")
    else Normal JUndefined.
Proof. unfold shouldUseKarmaJasmine110. by_cases. Qed.

End Eval.

Lemma truthy_lookup_chain (props : gmap string JSValue) (sect k : string) :
  truthy (lookup_chain props sect k) = declared props sect k.
Proof.
  unfold declared. destruct (entry props sect k) as [v|] eqn:E.
  - by rewrite (lookup_chain_present _ _ _ _ E).
  - by apply lookup_chain_absent.
Qed.

Lemma section_absent (props : gmap string JSValue) (sect : string) :
  props !! sect = None -> section props sect = JUndefined.
Proof. intros H. unfold section. by rewrite H. Qed.

Lemma entry_section_absent (props : gmap string JSValue) (sect k : string) :
  props !! sect = None -> entry props sect k = None.
Proof. intros H. unfold entry. by rewrite H. Qed.

Lemma entry_section_truthy (props : gmap string JSValue) (sect k : string) (v : JSValue) :
  entry props sect k = Some v -> truthy (section props sect) = true.
Proof.
  unfold entry, section. by destruct (props !! sect) as [[]|].
Qed.

(** ** notUsingStashAngularModuleNoDeps *)

(** X6. With a truthy [devDependencies] the predicate is the three-way check:
    [true] without the key, [true] with a version string that does not
    contain the host name, [false] with one that does. *)
Lemma notUsingStashAngularModuleNoDeps_three_way (props : gmap string JSValue) :
  truthy (section props "devDependencies") = true ->
  (entry props "devDependencies" "angular-module-no-deps" = None ->
   notUsingStashAngularModuleNoDeps (JObject props) = Normal JTrue)
  /\ (forall s, entry props "devDependencies" "angular-module-no-deps" = Some (JString s) ->
      ~ contains s "stash.mrgreen.zone" ->
      notUsingStashAngularModuleNoDeps (JObject props) = Normal JTrue)
  /\ (forall s, entry props "devDependencies" "angular-module-no-deps" = Some (JString s) ->
      contains s "stash.mrgreen.zone" ->
      notUsingStashAngularModuleNoDeps (JObject props) = Normal JFalse).
Proof.
  intros Hd. rewrite eval_notUsingStashAngularModuleNoDeps, Hd.
  split; [|split].
  - intros H. by rewrite (lookup_chain_absent _ _ _ H).
  - intros s H Hno. rewrite (lookup_chain_present _ _ _ _ H).
    destruct (truthy (JString s)); [|done]. simpl.
    destruct (Z.eqb_spec (str_indexOf s "stash.mrgreen.zone") (-1)) as [|Hne]; [done|].
    by apply str_indexOf_contains in Hne.
  - intros s H Hyes. rewrite (lookup_chain_present _ _ _ _ H).
    assert (Hs : truthy (JString s) = true).
    { destruct Hyes as (pre & post & ->). simpl. by destruct pre. }
    rewrite Hs. simpl.
    destruct (Z.eqb_spec (str_indexOf s "stash.mrgreen.zone") (-1)) as [He|]; [|done].
    by apply str_indexOf_contains in Hyes.
Qed.

(** X15. Without one (the key missing, or its value falsy) it throws: the
    second [if] reads a property of [json.devDependencies] unguarded. *)
Lemma notUsingStashAngularModuleNoDeps_unguarded (props : gmap string JSValue) :
  truthy (section props "devDependencies") = false ->
  notUsingStashAngularModuleNoDeps (JObject props) = Throw TypeError.
Proof. intros Hd. by rewrite eval_notUsingStashAngularModuleNoDeps, Hd. Qed.

(** C1. The specification has [notUsingStashAngularModuleNoDeps] return [true] on a
    document with no [devDependencies] mapping at all; on the document [{}]
    the predicate throws a [TypeError] instead, while
    [shouldUsePublicRequirePolyfill], written for the same contract, returns
    [true] there. *)
Theorem notUsingStashAngularModuleNoDeps_throws_on_empty_document :
  notUsingStashAngularModuleNoDeps doc_empty = Throw TypeError
  /\ shouldUsePublicRequirePolyfill doc_empty = Normal JTrue.
Proof. split; reflexivity. Qed.

(** ** All predicates on a document without [devDependencies] and [scripts] *)

(** C2. The specification has every predicate terminate normally on a document with
    neither a [devDependencies] nor a [scripts] mapping.  On every such
    document thirteen predicates do ([shouldUsePublicRequirePolyfill] with
    [true], the others with [undefined]), and the third,
    [notUsingStashAngularModuleNoDeps], throws a [TypeError]. *)
Theorem outcomes_without_devDependencies_and_scripts
    (semver : Semver) (props : gmap string JSValue) :
  props !! "devDependencies" = None ->
  props !! "scripts" = None ->
  outcomes (JObject props)
  = [ Normal JUndefined; Normal JUndefined; Throw TypeError; Normal JUndefined;
      Normal JUndefined; Normal JUndefined; Normal JUndefined; Normal JUndefined;
      Normal JTrue; Normal JUndefined; Normal JUndefined; Normal JUndefined;
      Normal JUndefined; Normal JUndefined ].
Proof.
  intros Hd Hs. unfold outcomes, predicates. cbn [map].
  rewrite eval_notUsingStashGfpEslintConfig, eval_missingEslintConfigGfp,
    eval_notUsingStashAngularModuleNoDeps, eval_usingDocumentationJs,
    eval_hasNpmLintScript, eval_shouldUsePhantomjsPrebuilt,
    eval_shouldUsePhantomjsLauncher1, eval_shouldUsePrepushHooks,
    eval_shouldUsePublicRequirePolyfill, eval_shouldUseEslintConfigGfp300,
    eval_shouldRunGfpDoctorPostInstall, eval_shouldUseKarma170,
    eval_shouldUseKarmaCoverage110, eval_shouldUseKarmaJasmine110.
  rewrite !truthy_lookup_chain. unfold declared.
  rewrite !(entry_section_absent _ _ _ Hd), !(entry_section_absent _ _ _ Hs).
  by rewrite (section_absent _ _ Hd).
Qed.

Lemma outcomes_without_devDependencies_and_scripts_witness :
  @outcomes semver_ref (JObject ∅)
  = [ Normal JUndefined; Normal JUndefined; Throw TypeError; Normal JUndefined;
      Normal JUndefined; Normal JUndefined; Normal JUndefined; Normal JUndefined;
      Normal JTrue; Normal JUndefined; Normal JUndefined; Normal JUndefined;
      Normal JUndefined; Normal JUndefined ].
Proof.
  apply (outcomes_without_devDependencies_and_scripts semver_ref ∅); reflexivity.
Defined.

(** ** Predicates on a document that lacks the dependency or script *)

(** C3, as stated, fails for [notUsingStashGfpEslintConfig]: a
    document whose [devDependencies] mapping lacks [gfp-eslint-config] gets
    an explicit [true], not [undefined]. *)
Lemma notUsingStashGfpEslintConfig_absent_counterexample :
  ~ (forall props : gmap string JSValue,
       entry props "devDependencies" "gfp-eslint-config" = None ->
       notUsingStashGfpEslintConfig (JObject props) = Normal JUndefined).
Proof.
  intros H.
  specialize (H {[ "devDependencies" := JObject ∅ ]} eq_refl).
  discriminate H.
Qed.

(** C3 (amended). On a document lacking the relevant dependency or script no
    predicate returns an explicit [false]: eleven predicates return
    [undefined]; [notUsingStashGfpEslintConfig] returns [true] when
    [devDependencies] is present and [undefined] when it is not;
    [shouldUsePublicRequirePolyfill] returns [true];
    [notUsingStashAngularModuleNoDeps] returns [true] when [devDependencies]
    is present. *)
Theorem predicates_on_absent_subject (semver : Semver) (props : gmap string JSValue) :
  (entry props "devDependencies" "gfp-eslint-config" = None ->
   notUsingStashGfpEslintConfig (JObject props)
   = Normal (if truthy (section props "devDependencies") then JTrue else JUndefined))
  /\ (entry props "devDependencies" "eslint-config-gfp" = None ->
      missingEslintConfigGfp (JObject props) = Normal JUndefined
      /\ shouldUseEslintConfigGfp300 (JObject props) = Normal JUndefined)
  /\ (entry props "devDependencies" "angular-module-no-deps" = None ->
      truthy (section props "devDependencies") = true ->
      notUsingStashAngularModuleNoDeps (JObject props) = Normal JTrue)
  /\ (entry props "devDependencies" "documentation" = None ->
      usingDocumentationJs (JObject props) = Normal JUndefined)
  /\ (entry props "scripts" "lint" = None ->
      hasNpmLintScript (JObject props) = Normal JUndefined)
  /\ (entry props "devDependencies" "phantomjs" = None ->
      entry props "devDependencies" "phantomjs-prebuilt" = None ->
      shouldUsePhantomjsPrebuilt (JObject props) = Normal JUndefined)
  /\ (entry props "devDependencies" "karma-phantomjs-launcher" = None ->
      shouldUsePhantomjsLauncher1 (JObject props) = Normal JUndefined)
  /\ (entry props "devDependencies" "husky" = None \/ entry props "scripts" "prepush" = None ->
      shouldUsePrepushHooks (JObject props) = Normal JUndefined)
  /\ (entry props "devDependencies" "require-polyfill" = None ->
      shouldUsePublicRequirePolyfill (JObject props) = Normal JTrue)
  /\ (entry props "scripts" "postinstall" = None ->
      shouldRunGfpDoctorPostInstall (JObject props) = Normal JUndefined)
  /\ (entry props "devDependencies" "karma" = None ->
      shouldUseKarma170 (JObject props) = Normal JUndefined)
  /\ (entry props "devDependencies" "karma-coverage" = None ->
      shouldUseKarmaCoverage110 (JObject props) = Normal JUndefined)
  /\ (entry props "devDependencies" "karma-jasmine" = None ->
      shouldUseKarmaJasmine110 (JObject props) = Normal JUndefined).
Proof.
  rewrite eval_notUsingStashGfpEslintConfig, eval_missingEslintConfigGfp,
    eval_notUsingStashAngularModuleNoDeps, eval_usingDocumentationJs,
    eval_hasNpmLintScript, eval_shouldUsePhantomjsPrebuilt,
    eval_shouldUsePhantomjsLauncher1, eval_shouldUsePrepushHooks,
    eval_shouldUsePublicRequirePolyfill, eval_shouldUseEslintConfigGfp300,
    eval_shouldRunGfpDoctorPostInstall, eval_shouldUseKarma170,
    eval_shouldUseKarmaCoverage110, eval_shouldUseKarmaJasmine110.
  rewrite !truthy_lookup_chain. unfold declared.
  repeat split; intros;
    repeat match goal with
    | H : _ \/ _ |- _ => destruct H
    | H : entry _ _ _ = None |- _ => rewrite H; clear H
    | H : truthy _ = true |- _ => rewrite H; clear H
    end;
    rewrite ?andb_false_r; simpl; try reflexivity.
  by destruct (truthy _).
Qed.

Lemma predicates_on_absent_subject_witness :
  @notUsingStashGfpEslintConfig (obj [("devDependencies", obj [])]) = Normal JTrue
  /\ notUsingStashGfpEslintConfig doc_empty = Normal JUndefined
  /\ @shouldUseEslintConfigGfp300 semver_ref doc_empty = Normal JUndefined
  /\ notUsingStashAngularModuleNoDeps (obj [("devDependencies", obj [])]) = Normal JTrue
  /\ shouldUsePrepushHooks (obj [("devDependencies", obj [("husky", JString "^0.14.3")])])
     = Normal JUndefined.
Proof.
  pose proof (predicates_on_absent_subject semver_ref
                (list_to_map [("devDependencies", obj [])])) as H1.
  pose proof (predicates_on_absent_subject semver_ref ∅) as H2.
  pose proof (predicates_on_absent_subject semver_ref
                (list_to_map
                   [("devDependencies", obj [("husky", JString "^0.14.3")])])) as H3.
  split; [exact (proj1 H1 eq_refl)|].
  split; [exact (proj1 H2 eq_refl)|].
  split; [exact (proj2 (proj1 (proj2 H2) eq_refl))|].
  split; [exact (proj1 (proj2 (proj2 H1)) eq_refl eq_refl)|].
  exact (proj1 (proj2 (proj2 (proj2 (proj2 (proj2 (proj2 (proj2 H3)))))))
           (or_intror eq_refl)).
Defined.

(** ** shouldUsePublicRequirePolyfill *)

(** C5. [shouldUsePublicRequirePolyfill] is default-permissive: it returns
    [true] whenever [require-polyfill] is not in [devDependencies] (also when
    there is no [devDependencies]), [false] when the declared version string
    contains [ssh://], [true] when it does not; on [{}] it returns [true]. *)
Theorem shouldUsePublicRequirePolyfill_default_permissive (props : gmap string JSValue) :
  (entry props "devDependencies" "require-polyfill" = None ->
   shouldUsePublicRequirePolyfill (JObject props) = Normal JTrue)
  /\ (props !! "devDependencies" = None ->
      shouldUsePublicRequirePolyfill (JObject props) = Normal JTrue)
  /\ (forall s, entry props "devDependencies" "require-polyfill" = Some (JString s) ->
      contains s "ssh://" ->
      shouldUsePublicRequirePolyfill (JObject props) = Normal JFalse)
  /\ (forall s, entry props "devDependencies" "require-polyfill" = Some (JString s) ->
      ~ contains s "ssh://" ->
      shouldUsePublicRequirePolyfill (JObject props) = Normal JTrue)
  /\ shouldUsePublicRequirePolyfill doc_empty = Normal JTrue.
Proof.
  split; [|split; [|split; [|split]]]; [..|reflexivity];
    rewrite eval_shouldUsePublicRequirePolyfill.
  - intros H. by rewrite (lookup_chain_absent _ _ _ H).
  - intros H. by rewrite (lookup_chain_absent _ _ _ (entry_section_absent _ _ _ H)).
  - intros s H Hyes. rewrite (lookup_chain_present _ _ _ _ H).
    assert (Hs : truthy (JString s) = true).
    { destruct Hyes as (pre & post & ->). simpl. by destruct pre. }
    rewrite Hs. simpl. apply str_includes_contains in Hyes. by rewrite Hyes.
  - intros s H Hno. rewrite (lookup_chain_present _ _ _ _ H).
    destruct (truthy (JString s)); [|done]. simpl.
    destruct (str_includes s "ssh://") eqn:E; [|done].
    by apply str_includes_contains in E.
Qed.

Lemma shouldUsePublicRequirePolyfill_default_permissive_witness :
  shouldUsePublicRequirePolyfill (obj [("devDependencies", obj [])]) = Normal JTrue
  /\ shouldUsePublicRequirePolyfill (obj [("scripts", obj [])]) = Normal JTrue
  /\ shouldUsePublicRequirePolyfill
       (obj [("devDependencies",
              obj [("require-polyfill", JString "git+ssh://git@stash/rp.git")])])
     = Normal JFalse
  /\ shouldUsePublicRequirePolyfill
       (obj [("devDependencies", obj [("require-polyfill", JString "^1.0.1")])])
     = Normal JTrue.
Proof.
  split; [|split; [|split]].
  - destruct (shouldUsePublicRequirePolyfill_default_permissive
                (list_to_map [("devDependencies", obj [])])) as (H & _).
    exact (H eq_refl).
  - destruct (shouldUsePublicRequirePolyfill_default_permissive
                (list_to_map [("scripts", obj [])])) as (_ & H & _).
    exact (H eq_refl).
  - destruct (shouldUsePublicRequirePolyfill_default_permissive
                (list_to_map
                   [("devDependencies",
                     obj [("require-polyfill", JString "git+ssh://git@stash/rp.git")])]))
      as (_ & _ & H & _).
    apply (H _ eq_refl). by exists "git+", "git@stash/rp.git".
  - destruct (shouldUsePublicRequirePolyfill_default_permissive
                (list_to_map
                   [("devDependencies", obj [("require-polyfill", JString "^1.0.1")])]))
      as (_ & _ & _ & H & _).
    apply (H _ eq_refl).
    intros Hc. apply str_includes_contains in Hc. discriminate Hc.
Defined.

(** ** shouldUsePhantomjsPrebuilt *)

(** C6, as stated, fails: a [devDependencies] mapping that
    contains the key [phantomjs] with the empty version string does not make
    the predicate return [false]. *)
Lemma shouldUsePhantomjsPrebuilt_key_presence_counterexample :
  ~ (forall (props : gmap string JSValue) (v : JSValue),
       entry props "devDependencies" "phantomjs" = Some v ->
       shouldUsePhantomjsPrebuilt (JObject props) = Normal JFalse).
Proof.
  intros H.
  specialize (H {[ "devDependencies" := JObject {[ "phantomjs" := JString "" ]} ]}
                (JString "") eq_refl).
  discriminate H.
Qed.

(** C6 (amended). [shouldUsePhantomjsPrebuilt] is a three-way check on
    declared (present and truthy) values: [false] if [phantomjs] is declared
    in [devDependencies]; otherwise [true] if [phantomjs-prebuilt] is;
    [undefined] in every other case, which includes a missing
    [devDependencies].  On a document declaring [phantomjs] at 1.0.0 it
    returns [false]. *)
Theorem shouldUsePhantomjsPrebuilt_three_way (props : gmap string JSValue) :
  shouldUsePhantomjsPrebuilt (JObject props)
  = Normal (if declared props "devDependencies" "phantomjs" then JFalse
            else if declared props "devDependencies" "phantomjs-prebuilt" then JTrue
            else JUndefined)
  /\ (props !! "devDependencies" = None ->
      shouldUsePhantomjsPrebuilt (JObject props) = Normal JUndefined)
  /\ shouldUsePhantomjsPrebuilt doc_phantomjs = Normal JFalse.
Proof.
  split; [|split]; [..|reflexivity];
    rewrite eval_shouldUsePhantomjsPrebuilt, !truthy_lookup_chain; [done|].
  intros H. unfold declared. by rewrite !(entry_section_absent _ _ _ H).
Qed.

Lemma shouldUsePhantomjsPrebuilt_three_way_witness :
  shouldUsePhantomjsPrebuilt (obj [("scripts", obj [])]) = Normal JUndefined.
Proof.
  destruct (shouldUsePhantomjsPrebuilt_three_way (list_to_map [("scripts", obj [])]))
    as (_ & H & _).
  exact (H eq_refl).
Defined.

(** ** shouldUseEslintConfigGfp300 *)

(** C7. [shouldUseEslintConfigGfp300] hands the floor version 2.9.9 and the
    declared range to the comparator's [ltr].  With a comparator that puts
    2.9.9 below [^3.0.0] and not below [^2.0.0]: on the document declaring
    [^3.0.0] both the rule using eslint-config-gfp and the version-floor rule
    pass; on the one declaring [^2.0.0] the version-floor rule fails; without
    the dependency the predicate returns [undefined]. *)
Theorem shouldUseEslintConfigGfp300_delegates (semver : Semver) :
  ltr "2.9.9" (JString "^3.0.0") = Normal JTrue ->
  ltr "2.9.9" (JString "^2.0.0") = Normal JFalse ->
  (forall (props : gmap string JSValue) (range : JSValue),
     entry props "devDependencies" "eslint-config-gfp" = Some range ->
     truthy range = true ->
     shouldUseEslintConfigGfp300 (JObject props) = ltr "2.9.9" range)
  /\ missingEslintConfigGfp doc_eslint3 = Normal JTrue
  /\ shouldUseEslintConfigGfp300 doc_eslint3 = Normal JTrue
  /\ shouldUseEslintConfigGfp300 doc_eslint2 = Normal JFalse
  /\ (forall props : gmap string JSValue,
        entry props "devDependencies" "eslint-config-gfp" = None ->
        shouldUseEslintConfigGfp300 (JObject props) = Normal JUndefined).
Proof.
  intros H3 H2.
  assert (Hdel : forall (props : gmap string JSValue) (range : JSValue),
            entry props "devDependencies" "eslint-config-gfp" = Some range ->
            truthy range = true ->
            shouldUseEslintConfigGfp300 (JObject props) = ltr "2.9.9" range).
  { intros props range He Ht.
    by rewrite eval_shouldUseEslintConfigGfp300, (lookup_chain_present _ _ _ _ He), Ht. }
  split; [exact Hdel|].
  split; [reflexivity|].
  split; [by rewrite <- H3; apply Hdel|].
  split; [by rewrite <- H2; apply Hdel|].
  intros props He.
  by rewrite eval_shouldUseEslintConfigGfp300, (lookup_chain_absent _ _ _ He).
Qed.

Lemma shouldUseEslintConfigGfp300_delegates_witness :
  @shouldUseEslintConfigGfp300 semver_ref doc_eslint3 = Normal JTrue
  /\ @shouldUseEslintConfigGfp300 semver_ref doc_eslint2 = Normal JFalse.
Proof.
  destruct (shouldUseEslintConfigGfp300_delegates semver_ref eq_refl eq_refl)
    as (_ & _ & H3 & H2 & _).
  exact (conj H3 H2).
Defined.

(** ** shouldUsePrepushHooks *)

(** C8. [shouldUsePrepushHooks] returns [true] only when both the [husky]
    devDependency and a [scripts.prepush] entry are there (and does so when
    both are declared); whenever one of the two is missing it returns
    [undefined]; it never returns [false]. *)
Theorem shouldUsePrepushHooks_both_or_indeterminate (props : gmap string JSValue) :
  (shouldUsePrepushHooks (JObject props) = Normal JTrue ->
   is_Some (entry props "devDependencies" "husky")
   /\ is_Some (entry props "scripts" "prepush"))
  /\ (declared props "devDependencies" "husky" = true ->
      declared props "scripts" "prepush" = true ->
      shouldUsePrepushHooks (JObject props) = Normal JTrue)
  /\ (entry props "devDependencies" "husky" = None
      \/ entry props "scripts" "prepush" = None ->
      shouldUsePrepushHooks (JObject props) = Normal JUndefined)
  /\ (shouldUsePrepushHooks (JObject props) = Normal JTrue
      \/ shouldUsePrepushHooks (JObject props) = Normal JUndefined)
  /\ shouldUsePrepushHooks (JObject props) <> Normal JFalse.
Proof.
  rewrite eval_shouldUsePrepushHooks, !truthy_lookup_chain. unfold declared.
  destruct (entry props "devDependencies" "husky") as [h|];
    destruct (entry props "scripts" "prepush") as [p|];
    try destruct (truthy h); try destruct (truthy p); simpl;
    (split; [|split; [|split; [|split]]]);
    try done; try (intros [|]; done); try (intros; split; by eexists); auto.
Qed.

Lemma shouldUsePrepushHooks_both_or_indeterminate_witness :
  (is_Some (entry (list_to_map
                     [("devDependencies", obj [("husky", JString "^0.14.3")]);
                      ("scripts", obj [("prepush", JString "npm run lint")])])
                  "devDependencies" "husky"))
  /\ shouldUsePrepushHooks
       (obj [("devDependencies", obj [("husky", JString "^0.14.3")]);
             ("scripts", obj [("prepush", JString "npm run lint")])])
     = Normal JTrue
  /\ shouldUsePrepushHooks (obj [("devDependencies", obj [("husky", JString "^0.14.3")])])
     = Normal JUndefined.
Proof.
  destruct (shouldUsePrepushHooks_both_or_indeterminate
              (list_to_map
                 [("devDependencies", obj [("husky", JString "^0.14.3")]);
                  ("scripts", obj [("prepush", JString "npm run lint")])]))
    as (H1 & H2 & _).
  destruct (shouldUsePrepushHooks_both_or_indeterminate
              (list_to_map [("devDependencies", obj [("husky", JString "^0.14.3")])]))
    as (_ & _ & H3 & _).
  split; [exact (proj1 (H1 eq_refl))|].
  split; [exact (H2 eq_refl eq_refl)|].
  exact (H3 (or_intror eq_refl)).
Defined.

(** ** Truthiness, not key presence *)

Section FalsyEntry.
Context (props m : gmap string JSValue) (sect k : string) (v : JSValue).
Hypothesis Hsect : props !! sect = Some (JObject m).
Hypothesis Hentry : m !! k = Some v.
Hypothesis Hfalsy : truthy v = false.

Lemma section_without_entry (s : string) :
  truthy (section (without_entry props sect k m) s) = truthy (section props s).
Proof.
  unfold section, without_entry. destruct (decide (sect = s)) as [<-|Hne].
  - by rewrite lookup_insert_eq, Hsect.
  - by rewrite lookup_insert_ne.
Qed.

(** What a guard reads is unchanged, or falsy before and after. *)
Lemma lookup_chain_without_entry (s key : string) :
  lookup_chain (without_entry props sect k m) s key = lookup_chain props s key
  \/ (truthy (lookup_chain (without_entry props sect k m) s key) = false
      /\ truthy (lookup_chain props s key) = false).
Proof.
  unfold lookup_chain, section, without_entry. destruct (decide (sect = s)) as [<-|Hne].
  - rewrite lookup_insert_eq, Hsect. simpl.
    destruct (decide (k = key)) as [<-|Hk].
    + right. by rewrite lookup_delete_eq, Hentry.
    + left. by rewrite lookup_delete_ne.
  - left. by rewrite lookup_insert_ne.
Qed.

End FalsyEntry.

(** C10. Every predicate tests a dependency or script by the truthiness of
    its declared value, not by the presence of the key: taking a key with a
    falsy value out of its mapping changes the outcome of none of the
    fourteen predicates.  With the empty string declared,
    [missingEslintConfigGfp] and [hasNpmLintScript] return [undefined]
    rather than [true]. *)
Theorem falsy_entry_is_absent (semver : Semver) :
  (forall (p : JSValue -> Completion JSValue) (props m : gmap string JSValue)
          (sect k : string) (v : JSValue),
     In p predicates ->
     props !! sect = Some (JObject m) ->
     m !! k = Some v ->
     truthy v = false ->
     p (JObject props) = p (JObject (without_entry props sect k m)))
  /\ missingEslintConfigGfp
       (obj [("devDependencies", obj [("eslint-config-gfp", JString "")])])
     = Normal JUndefined
  /\ hasNpmLintScript (obj [("scripts", obj [("lint", JString "")])])
     = Normal JUndefined.
Proof.
  split; [|split; reflexivity].
  intros p props m sect k v Hp Hsect Hentry Hfalsy.
  pose proof (section_without_entry props m sect k Hsect) as Hsec.
  pose proof (lookup_chain_without_entry props m sect k v Hsect Hentry Hfalsy) as Hch.
  simpl in Hp.
  repeat (destruct Hp as [<-|Hp]); [..|done].
  all: rewrite ?eval_notUsingStashGfpEslintConfig, ?eval_missingEslintConfigGfp,
    ?eval_notUsingStashAngularModuleNoDeps, ?eval_usingDocumentationJs,
    ?eval_hasNpmLintScript, ?eval_shouldUsePhantomjsPrebuilt,
    ?eval_shouldUsePhantomjsLauncher1, ?eval_shouldUsePrepushHooks,
    ?eval_shouldUsePublicRequirePolyfill, ?eval_shouldUseEslintConfigGfp300,
    ?eval_shouldRunGfpDoctorPostInstall, ?eval_shouldUseKarma170,
    ?eval_shouldUseKarmaCoverage110, ?eval_shouldUseKarmaJasmine110.
  all: rewrite ?Hsec.
  all: repeat match goal with
       | |- context [lookup_chain (without_entry _ _ _ _) ?s ?key] =>
           destruct (Hch s key) as [-> | [-> ?]]
       end.
  all: repeat match goal with
       | H : truthy _ = false |- _ => rewrite H; clear H
       end.
  all: reflexivity.
Qed.

Lemma falsy_entry_is_absent_witness :
  @shouldUsePhantomjsPrebuilt
    (obj [("devDependencies",
           obj [("phantomjs", JString ""); ("phantomjs-prebuilt", JString "^2.1.16")])])
  = shouldUsePhantomjsPrebuilt
      (obj [("devDependencies", obj [("phantomjs-prebuilt", JString "^2.1.16")])]).
Proof.
  destruct (falsy_entry_is_absent semver_ref) as (H & _).
  exact (H shouldUsePhantomjsPrebuilt
           (list_to_map
              [("devDependencies",
                obj [("phantomjs", JString "");
                     ("phantomjs-prebuilt", JString "^2.1.16")])])
           (list_to_map
              [("phantomjs", JString ""); ("phantomjs-prebuilt", JString "^2.1.16")])
           "devDependencies" "phantomjs" (JString "")
           ltac:(simpl; tauto) eq_refl eq_refl eq_refl).
Defined.

(** ** The exported function and the shared [rulesConf] *)

Example examine_a : fst (@examine rules_util_spec host_example options_a (@world0 semver_ref))
  = Normal rulesConf_loc.
Proof. vm_compute. reflexivity. Qed.

(** The runner's loop, when it returns: every predicate has been called once,
    in order, and each rule carries its predicate's result on this
    document. *)
Lemma run_rules_normal (rs out : list Rule) (json options : JSValue) (inv inv' : list string) :
  run_rules rs json options inv = (Normal out, inv') ->
  inv' = (inv ++ map desc rs)%list
  /\ Forall2 (fun r r' => exists v, fn r json options = Normal v
                                    /\ r' = set_passed (Some v) r) rs out.
Proof.
  revert out inv inv'. induction rs as [|r rs IH]; intros out inv inv' H; simpl in H.
  - injection H as <- <-. split; [by rewrite app_nil_r | constructor].
  - destruct (fn r json options) as [v|e] eqn:Hv; [|discriminate].
    destruct (run_rules rs json options (inv ++ [desc r])) as [[out'|e] inv''] eqn:Hr;
      [|discriminate].
    injection H as <- <-. destruct (IH _ _ _ Hr) as [-> HF].
    split; [by rewrite <- app_assoc | constructor; eauto].
Qed.

(** The loop calls nothing when there is no rule, and a predicate that throws
    is the last one called. *)
Lemma run_rules_invoked_prefix (rs : list Rule) (json options : JSValue) (inv : list string) :
  exists called, snd (run_rules rs json options inv) = (inv ++ called)%list
                 /\ called `prefix_of` map desc rs.
Proof.
  revert inv. induction rs as [|r rs IH]; intros inv; simpl.
  - exists []. by rewrite app_nil_r.
  - destruct (fn r json options) as [v|e]; simpl.
    + destruct (IH (inv ++ [desc r])%list) as (called & Hc & Hp).
      exists (desc r :: called).
      destruct (run_rules rs json options (inv ++ [desc r])) as [[out|e] inv'];
        simpl in *; subst inv'; rewrite <- app_assoc; split; try done;
        by apply prefix_cons.
    + exists [desc r]. split; [done|]. apply prefix_cons, prefix_nil.
Qed.

(** C4. When nothing exists at the resolved path, the exported function
    returns what [addSkipped] makes of [rulesConf]: the report has [skipped]
    set, no rule carries an outcome, and no predicate has been invoked
    (whatever [processRules] is, it is not called). *)
Theorem examine_skips_absent_manifest
    (process : loc -> JSValue -> JSValue -> M (list Rule))
    (host : Host) (options : JSValue) (w : World) (path : string) (o : RuleSet) :
  packagePath host options = Normal path ->
  file host path = None ->
  heap w !! rulesConf_loc = Some o ->
  exists w' o',
    @examine {| addSkipped := addSkipped_spec; processRules := process |} host options w
    = (Normal rulesConf_loc, w')
    /\ heap w' !! rulesConf_loc = Some o'
    /\ skipped o' = true
    /\ Forall (fun r => passed r = None) (rules o')
    /\ map desc (rules o') = map desc (rules o)
    /\ invoked w' = invoked w.
Proof.
  intros Hpath Hfile Ho. unfold examine. rewrite Hpath, Hfile. simpl.
  unfold addSkipped_spec. rewrite Ho.
  eexists _, _. split; [reflexivity|]. simpl. rewrite lookup_insert_eq.
  split; [reflexivity|]. simpl. split; [reflexivity|].
  split; [|split; [|reflexivity]].
  - apply Forall_forall. intros r Hr. apply list_elem_of_In, in_map_iff in Hr.
    by destruct Hr as (r0 & <- & _).
  - rewrite map_map. by apply map_ext.
Qed.

Lemma examine_skips_absent_manifest_witness :
  exists w' o',
    @examine rules_util_spec host_example options_none (@world0 semver_ref)
    = (Normal rulesConf_loc, w')
    /\ heap w' !! rulesConf_loc = Some o'
    /\ skipped o' = true
    /\ Forall (fun r => passed r = None) (rules o')
    /\ map desc (rules o') = map desc (rules (@rulesConf semver_ref))
    /\ invoked w' = [].
Proof.
  exact (examine_skips_absent_manifest processRules_spec host_example options_none
           (@world0 semver_ref) "/repo/package.json" (@rulesConf semver_ref)
           eq_refl eq_refl eq_refl).
Defined.

(** A run that finds and parses its manifest writes the runner's result into
    the [rules] field of the object at [rulesConf_loc] and returns that
    location. *)
Lemma examine_present {util : RulesUtil} (host : Host) (options json : JSValue)
    (w w1 : World) (path : string) (rs : list Rule) :
  packagePath host options = Normal path ->
  file host path = Some (Normal json) ->
  processRules rulesConf_loc json options w = (Normal rs, w1) ->
  examine host options w = (Normal rulesConf_loc, assign_rules rulesConf_loc rs w1).
Proof.
  intros Hpath Hfile Hrun. unfold examine. by rewrite Hpath, Hfile, Hrun.
Qed.

Lemma assign_rules_lookup (l : loc) (rs : list Rule) (w : World) :
  heap (assign_rules l rs w) !! l = set_rules rs <$> heap w !! l.
Proof. unfold assign_rules. simpl. by rewrite lookup_alter_eq. Qed.

(** C9, as stated, fails: two successive runs on two manifests
    return the same object, and the second run rewrites the report the first
    one returned. *)
Lemma fresh_report_per_run_counterexample :
  ~ @fresh_report_per_run rules_util_spec host_example.
Proof.
  intros H. specialize (H options_a options_b (@world0 semver_ref)).
  assert (F1 : fst (@examine rules_util_spec host_example options_a (@world0 semver_ref))
               = Normal rulesConf_loc) by (vm_compute; reflexivity).
  assert (F2 : fst (@examine rules_util_spec host_example options_b
                      (snd (@examine rules_util_spec host_example options_a
                              (@world0 semver_ref))))
               = Normal rulesConf_loc) by (vm_compute; reflexivity).
  destruct (examine host_example options_a world0) as [c1 w1].
  simpl in F1, F2. subst c1.
  destruct (examine host_example options_b w1) as [c2 w2].
  simpl in F2. subst c2.
  destruct H as [Hne _]. by apply Hne.
Qed.

(** On the example host: the version-floor rule of the report returned by the
    first run reads [true] after that run and [false] after the second. *)
Example report_of_first_run_rewritten :
  let r1 := @examine rules_util_spec host_example options_a (@world0 semver_ref) in
  let r2 := @examine rules_util_spec host_example options_b (snd r1) in
  fst r1 = Normal rulesConf_loc
  /\ fst r2 = Normal rulesConf_loc
  /\ outcome_at (snd r1) rulesConf_loc 9 = Some JTrue
  /\ outcome_at (snd r2) rulesConf_loc 9 = Some JFalse.
Proof. vm_compute. repeat split; reflexivity. Qed.

(** With the runner of the specification, the rules a run stores carry the
    outcomes of that run's document only. *)
Lemma processRules_spec_outcomes (l : loc) (json options : JSValue) (w w1 : World)
    (rs : list Rule) :
  processRules_spec l json options w = (Normal rs, w1) ->
  Forall (fun r => exists v, fn r json options = Normal v /\ passed r = Some v) rs.
Proof.
  unfold processRules_spec. destruct (heap w !! l) as [o|]; [|discriminate].
  destruct (run_rules (rules o) json options (invoked w)) as [res inv] eqn:Hr.
  intros H. injection H as -> <-.
  apply run_rules_normal in Hr as [_ HF].
  induction HF as [|r r' rs0 out (v & Hv & ->) _ IH]; constructor; [|exact IH].
  exists v. by split.
Qed.

(** C9 (amended). A call of the exported function that finds and parses its
    manifest assigns the runner's result to the [rules] field of the one
    module-level [rulesConf] object and returns that object.  Two successive
    such runs return the same object, and after the second run it holds the
    rules of the second run. *)
Theorem examine_shares_rulesConf (util : RulesUtil) (host : Host)
    (o1 o2 json1 json2 : JSValue) (w w1 w2 : World) (p1 p2 : string)
    (rs1 rs2 : list Rule) :
  packagePath host o1 = Normal p1 ->
  file host p1 = Some (Normal json1) ->
  processRules rulesConf_loc json1 o1 w = (Normal rs1, w1) ->
  packagePath host o2 = Normal p2 ->
  file host p2 = Some (Normal json2) ->
  processRules rulesConf_loc json2 o2 (assign_rules rulesConf_loc rs1 w1) = (Normal rs2, w2) ->
  is_Some (heap w2 !! rulesConf_loc) ->
  exists w1' w2',
    examine host o1 w = (Normal rulesConf_loc, w1')
    /\ examine host o2 w1' = (Normal rulesConf_loc, w2')
    /\ rules <$> heap w2' !! rulesConf_loc = Some rs2.
Proof.
  intros Hp1 Hf1 Hr1 Hp2 Hf2 Hr2 [o Ho].
  exists (assign_rules rulesConf_loc rs1 w1), (assign_rules rulesConf_loc rs2 w2).
  split; [by eapply examine_present|].
  split; [by eapply examine_present|].
  by rewrite assign_rules_lookup, Ho.
Qed.

Lemma examine_shares_rulesConf_witness :
  exists w1' w2',
    @examine rules_util_spec host_example options_a (@world0 semver_ref)
    = (Normal rulesConf_loc, w1')
    /\ @examine rules_util_spec host_example options_b w1' = (Normal rulesConf_loc, w2')
    /\ map passed <$> (rules <$> heap w2' !! rulesConf_loc)
       = Some [ Some JTrue; Some JTrue; Some JTrue; Some JUndefined; Some JUndefined;
                Some JUndefined; Some JUndefined; Some JUndefined; Some JTrue;
                Some JFalse; Some JUndefined; Some JUndefined; Some JUndefined;
                Some JUndefined ].
Proof.
  set (r1 := processRules_spec rulesConf_loc doc_eslint3 options_a (@world0 semver_ref)).
  set (r2 := processRules_spec rulesConf_loc doc_eslint2 options_b
               (assign_rules rulesConf_loc (rules_of (fst r1)) (snd r1))).
  destruct (examine_shares_rulesConf rules_util_spec host_example
              options_a options_b doc_eslint3 doc_eslint2 (@world0 semver_ref)
              (snd r1) (snd r2) "/repo/a.json" "/repo/b.json"
              (rules_of (fst r1)) (rules_of (fst r2)))
    as (w1' & w2' & H1 & H2 & H3); try reflexivity.
  - by eexists.
  - exists w1', w2'. split; [exact H1|]. split; [exact H2|].
    rewrite H3. reflexivity.
Defined.

(** * Further properties of the predicates and of the exported function *)

(** ** Results the predicates can and cannot produce *)

(** X1. The six predicates without a [return false] never report an explicit
    failure, whatever the document: each returns [true] or [undefined], or
    throws a [TypeError] (which the guarded ones do on a [null] document
    only). *)
Theorem pass_only_predicates_never_fail
    (p : JSValue -> Completion JSValue) (json : JSValue) :
  In p pass_only_predicates ->
  p json = Normal JTrue \/ p json = Normal JUndefined \/ p json = Throw TypeError.
Proof.
  intros Hp. simpl in Hp. repeat (destruct Hp as [<-|Hp]); [..|done].
  all: destruct json as [| |b|n|s|xs|props]; try (right; right; reflexivity);
    try (right; left; reflexivity).
  all: rewrite ?eval_notUsingStashGfpEslintConfig, ?eval_missingEslintConfigGfp,
    ?eval_usingDocumentationJs, ?eval_hasNpmLintScript, ?eval_shouldUsePrepushHooks,
    ?eval_shouldRunGfpDoctorPostInstall.
  all: repeat match goal with
       | |- context [truthy ?v] => destruct (truthy v)
       end; simpl; auto.
  destruct (lookup_chain props "scripts" "postinstall") as [| |b|n|s|xs|m];
    simpl; auto.
  - destruct (str_includes s "gfp-doctor"); simpl; auto.
  - destruct (existsb (is_string "gfp-doctor") xs); simpl; auto.
Qed.

Lemma pass_only_predicates_never_fail_witness :
  hasNpmLintScript (obj [("scripts", obj [("lint", JString "eslint *.js")])]) = Normal JTrue
  \/ hasNpmLintScript (obj [("scripts", obj [("lint", JString "eslint *.js")])])
     = Normal JUndefined
  \/ hasNpmLintScript (obj [("scripts", obj [("lint", JString "eslint *.js")])])
     = Throw TypeError.
Proof.
  apply (pass_only_predicates_never_fail hasNpmLintScript). simpl. tauto.
Defined.

(** X2. On an object document the six guarded predicates always return, with
    [true], [false] or [undefined], whatever sits under [devDependencies] and
    [scripts] ([null], a number, a string, an array, a mapping). *)
Theorem guarded_predicates_return_on_objects
    (p : JSValue -> Completion JSValue) (props : gmap string JSValue) :
  In p guarded_predicates ->
  p (JObject props) = Normal JTrue
  \/ p (JObject props) = Normal JFalse
  \/ p (JObject props) = Normal JUndefined.
Proof.
  intros Hp. simpl in Hp. repeat (destruct Hp as [<-|Hp]); [..|done].
  all: rewrite ?eval_notUsingStashGfpEslintConfig, ?eval_missingEslintConfigGfp,
    ?eval_usingDocumentationJs, ?eval_hasNpmLintScript,
    ?eval_shouldUsePhantomjsPrebuilt, ?eval_shouldUsePrepushHooks.
  all: repeat match goal with
       | |- context [truthy ?v] => destruct (truthy v)
       end; simpl; auto.
Qed.

Lemma guarded_predicates_return_on_objects_witness :
  shouldUsePrepushHooks (obj [("devDependencies", JNull); ("scripts", JNumber 3)])
  = Normal JTrue
  \/ shouldUsePrepushHooks (obj [("devDependencies", JNull); ("scripts", JNumber 3)])
     = Normal JFalse
  \/ shouldUsePrepushHooks (obj [("devDependencies", JNull); ("scripts", JNumber 3)])
     = Normal JUndefined.
Proof.
  apply (guarded_predicates_return_on_objects shouldUsePrepushHooks
           (list_to_map [("devDependencies", JNull); ("scripts", JNumber 3)])).
  simpl. tauto.
Defined.

(** X3. A document that is not an object: on a boolean, a number, a string or
    an array every predicate does what it does on [{}] (property reads give
    [undefined]); on [null] every predicate throws a [TypeError]. *)
Theorem outcomes_on_non_object (semver : Semver) (json : JSValue) :
  (is_primitive_or_array json = true -> outcomes json = outcomes (JObject ∅))
  /\ outcomes JNull = replicate 14 (Throw TypeError).
Proof.
  split; [|reflexivity].
  destruct json as [| |b|n|s|xs|props]; try discriminate; intros _; reflexivity.
Qed.

Lemma outcomes_on_non_object_witness :
  @outcomes semver_ref (JArray [JString "devDependencies"])
  = @outcomes semver_ref (JObject ∅).
Proof.
  exact (proj1 (outcomes_on_non_object semver_ref (JArray [JString "devDependencies"]))
           eq_refl).
Defined.

(** ** What the predicates read *)

Lemma section_ext (props1 props2 : gmap string JSValue) (s : string) :
  props1 !! s = props2 !! s -> section props1 s = section props2 s.
Proof. unfold section. by intros ->. Qed.

Lemma lookup_chain_ext (props1 props2 : gmap string JSValue) (s k : string) :
  props1 !! s = props2 !! s -> lookup_chain props1 s k = lookup_chain props2 s k.
Proof. intros H. unfold lookup_chain. by rewrite (section_ext _ _ _ H). Qed.

(** X4. A predicate reads nothing of the document but [devDependencies] and
    [scripts]: two object documents that agree on these two keys get the same
    outcome from each of the fourteen predicates. *)
Theorem predicates_read_two_keys (semver : Semver)
    (p : JSValue -> Completion JSValue) (props1 props2 : gmap string JSValue) :
  In p predicates ->
  props1 !! "devDependencies" = props2 !! "devDependencies" ->
  props1 !! "scripts" = props2 !! "scripts" ->
  p (JObject props1) = p (JObject props2).
Proof.
  intros Hp Hd Hs. simpl in Hp.
  repeat (destruct Hp as [<-|Hp]); [..|done].
  all: rewrite ?eval_notUsingStashGfpEslintConfig, ?eval_missingEslintConfigGfp,
    ?eval_notUsingStashAngularModuleNoDeps, ?eval_usingDocumentationJs,
    ?eval_hasNpmLintScript, ?eval_shouldUsePhantomjsPrebuilt,
    ?eval_shouldUsePhantomjsLauncher1, ?eval_shouldUsePrepushHooks,
    ?eval_shouldUsePublicRequirePolyfill, ?eval_shouldUseEslintConfigGfp300,
    ?eval_shouldRunGfpDoctorPostInstall, ?eval_shouldUseKarma170,
    ?eval_shouldUseKarmaCoverage110, ?eval_shouldUseKarmaJasmine110.
  all: rewrite ?(section_ext _ _ _ Hd), ?(lookup_chain_ext props1 props2 _ _ Hd),
    ?(lookup_chain_ext props1 props2 _ _ Hs).
  all: reflexivity.
Qed.

Lemma predicates_read_two_keys_witness :
  @shouldUseKarma170 semver_ref
    (obj [("name", JString "gfp-module"); ("version", JString "1.2.3");
          ("devDependencies", obj [("karma", JString "^1.7.0")])])
  = @shouldUseKarma170 semver_ref
      (obj [("devDependencies", obj [("karma", JString "^1.7.0")])]).
Proof.
  apply (predicates_read_two_keys semver_ref shouldUseKarma170
           (list_to_map
              [("name", JString "gfp-module"); ("version", JString "1.2.3");
               ("devDependencies", obj [("karma", JString "^1.7.0")])])
           (list_to_map [("devDependencies", obj [("karma", JString "^1.7.0")])])).
  - simpl. tauto.
  - reflexivity.
  - reflexivity.
Defined.

(** X5. Eleven predicates depend on [devDependencies] alone and two on
    [scripts] alone: changing the other mapping, or anything else, leaves
    their outcome as it was. *)
Theorem predicates_read_one_key (semver : Semver)
    (p : JSValue -> Completion JSValue) (props1 props2 : gmap string JSValue) :
  (In p devDependencies_predicates ->
   props1 !! "devDependencies" = props2 !! "devDependencies" ->
   p (JObject props1) = p (JObject props2))
  /\ (In p scripts_predicates ->
      props1 !! "scripts" = props2 !! "scripts" ->
      p (JObject props1) = p (JObject props2)).
Proof.
  split; intros Hp H; simpl in Hp; repeat (destruct Hp as [<-|Hp]); try done.
  all: rewrite ?eval_notUsingStashGfpEslintConfig, ?eval_missingEslintConfigGfp,
    ?eval_notUsingStashAngularModuleNoDeps, ?eval_usingDocumentationJs,
    ?eval_hasNpmLintScript, ?eval_shouldUsePhantomjsPrebuilt,
    ?eval_shouldUsePhantomjsLauncher1,
    ?eval_shouldUsePublicRequirePolyfill, ?eval_shouldUseEslintConfigGfp300,
    ?eval_shouldRunGfpDoctorPostInstall, ?eval_shouldUseKarma170,
    ?eval_shouldUseKarmaCoverage110, ?eval_shouldUseKarmaJasmine110.
  all: rewrite ?(section_ext _ _ _ H), ?(lookup_chain_ext props1 props2 _ _ H).
  all: reflexivity.
Qed.

Lemma predicates_read_one_key_witness :
  shouldUsePhantomjsPrebuilt
    (obj [("devDependencies", obj [("phantomjs-prebuilt", JString "^2.1.16")]);
          ("scripts", obj [("lint", JString "eslint *.js")])])
  = shouldUsePhantomjsPrebuilt
      (obj [("devDependencies", obj [("phantomjs-prebuilt", JString "^2.1.16")])])
  /\ hasNpmLintScript
       (obj [("devDependencies", obj [("phantomjs-prebuilt", JString "^2.1.16")]);
             ("scripts", obj [("lint", JString "eslint *.js")])])
     = hasNpmLintScript (obj [("scripts", obj [("lint", JString "eslint *.js")])]).
Proof.
  split.
  - refine (proj1 (predicates_read_one_key semver_ref shouldUsePhantomjsPrebuilt
                     (list_to_map
                        [("devDependencies",
                          obj [("phantomjs-prebuilt", JString "^2.1.16")]);
                         ("scripts", obj [("lint", JString "eslint *.js")])])
                     (list_to_map
                        [("devDependencies",
                          obj [("phantomjs-prebuilt", JString "^2.1.16")])]))
              _ eq_refl).
    simpl. tauto.
  - refine (proj2 (predicates_read_one_key semver_ref hasNpmLintScript
                     (list_to_map
                        [("devDependencies",
                          obj [("phantomjs-prebuilt", JString "^2.1.16")]);
                         ("scripts", obj [("lint", JString "eslint *.js")])])
                     (list_to_map [("scripts", obj [("lint", JString "eslint *.js")])]))
              _ eq_refl).
    simpl. tauto.
Defined.

(** ** The predicates that call a method on the declared value *)

Lemma notUsingStashAngularModuleNoDeps_three_way_witness :
  notUsingStashAngularModuleNoDeps
    (obj [("devDependencies",
           obj [("angular-module-no-deps",
                 JString "git+ssh://git@stash.mrgreen.zone/amnd.git")])])
  = Normal JFalse
  /\ notUsingStashAngularModuleNoDeps
       (obj [("devDependencies", obj [("angular-module-no-deps", JString "^1.0.0")])])
     = Normal JTrue
  /\ notUsingStashAngularModuleNoDeps (obj [("devDependencies", obj [])]) = Normal JTrue.
Proof.
  split; [|split].
  - destruct (notUsingStashAngularModuleNoDeps_three_way
                (list_to_map
                   [("devDependencies",
                     obj [("angular-module-no-deps",
                           JString "git+ssh://git@stash.mrgreen.zone/amnd.git")])]))
      as (_ & _ & H); [reflexivity|].
    apply (H _ eq_refl). by exists "git+ssh://git@", "/amnd.git".
  - destruct (notUsingStashAngularModuleNoDeps_three_way
                (list_to_map
                   [("devDependencies",
                     obj [("angular-module-no-deps", JString "^1.0.0")])]))
      as (_ & H & _); [reflexivity|].
    apply (H _ eq_refl).
    intros Hc. apply str_includes_contains in Hc. discriminate Hc.
  - destruct (notUsingStashAngularModuleNoDeps_three_way
                (list_to_map [("devDependencies", obj [])])) as (H & _); [reflexivity|].
    exact (H eq_refl).
Defined.

(** X7. The three predicates that search the declared value
    ([notUsingStashAngularModuleNoDeps] with [indexOf],
    [shouldUsePublicRequirePolyfill] and [shouldRunGfpDoctorPostInstall] with
    [includes]) throw a [TypeError] when that value is truthy but neither a
    string nor an array (a number, [true], a mapping). *)
Theorem search_on_value_without_methods (props : gmap string JSValue) (v : JSValue) :
  truthy v = true ->
  has_search_methods v = false ->
  (entry props "devDependencies" "angular-module-no-deps" = Some v ->
   notUsingStashAngularModuleNoDeps (JObject props) = Throw TypeError)
  /\ (entry props "devDependencies" "require-polyfill" = Some v ->
      shouldUsePublicRequirePolyfill (JObject props) = Throw TypeError)
  /\ (entry props "scripts" "postinstall" = Some v ->
      shouldRunGfpDoctorPostInstall (JObject props) = Throw TypeError).
Proof.
  intros Ht Hm.
  rewrite eval_notUsingStashAngularModuleNoDeps, eval_shouldUsePublicRequirePolyfill,
    eval_shouldRunGfpDoctorPostInstall.
  split; [|split]; intros He.
  - rewrite (entry_section_truthy _ _ _ _ He).
    rewrite (lookup_chain_present _ _ _ _ He), Ht. by destruct v.
  - rewrite (lookup_chain_present _ _ _ _ He), Ht. by destruct v.
  - rewrite (lookup_chain_present _ _ _ _ He), Ht. by destruct v.
Qed.

Lemma search_on_value_without_methods_witness :
  shouldRunGfpDoctorPostInstall (obj [("scripts", obj [("postinstall", JNumber 1)])])
  = Throw TypeError.
Proof.
  destruct (search_on_value_without_methods
              (list_to_map [("scripts", obj [("postinstall", JNumber 1)])])
              (JNumber 1)) as (_ & _ & H); [reflexivity..|].
  exact (H eq_refl).
Defined.

(** X8. With a string under [scripts.postinstall],
    [shouldRunGfpDoctorPostInstall] returns [true] when the string contains
    [gfp-doctor] and [undefined] when it does not. *)
Theorem shouldRunGfpDoctorPostInstall_on_string (props : gmap string JSValue) (s : string) :
  entry props "scripts" "postinstall" = Some (JString s) ->
  (contains s "gfp-doctor" ->
   shouldRunGfpDoctorPostInstall (JObject props) = Normal JTrue)
  /\ (~ contains s "gfp-doctor" ->
      shouldRunGfpDoctorPostInstall (JObject props) = Normal JUndefined).
Proof.
  intros He. rewrite eval_shouldRunGfpDoctorPostInstall, (lookup_chain_present _ _ _ _ He).
  split.
  - intros Hyes.
    assert (Hs : truthy (JString s) = true).
    { destruct Hyes as (pre & post & ->). simpl. by destruct pre. }
    rewrite Hs. simpl. apply str_includes_contains in Hyes. by rewrite Hyes.
  - intros Hno. destruct (truthy (JString s)); [|done]. simpl.
    destruct (str_includes s "gfp-doctor") eqn:E; [|done].
    by apply str_includes_contains in E.
Qed.

Lemma shouldRunGfpDoctorPostInstall_on_string_witness :
  shouldRunGfpDoctorPostInstall
    (obj [("scripts", obj [("postinstall", JString "bower install && gfp-doctor")])])
  = Normal JTrue
  /\ shouldRunGfpDoctorPostInstall
       (obj [("scripts", obj [("postinstall", JString "bower install")])])
     = Normal JUndefined.
Proof.
  split.
  - destruct (shouldRunGfpDoctorPostInstall_on_string
                (list_to_map
                   [("scripts",
                     obj [("postinstall", JString "bower install && gfp-doctor")])])
                "bower install && gfp-doctor") as (H & _); [reflexivity|].
    apply H. by exists "bower install && ", "".
  - destruct (shouldRunGfpDoctorPostInstall_on_string
                (list_to_map [("scripts", obj [("postinstall", JString "bower install")])])
                "bower install") as (_ & H); [reflexivity|].
    apply H. intros Hc. apply str_includes_contains in Hc. discriminate Hc.
Defined.

(** ** notUsingStashGfpEslintConfig *)

(** X9. [notUsingStashGfpEslintConfig] returns [true] exactly when there is a
    truthy [devDependencies] in which [gfp-eslint-config] is not declared,
    and [undefined] in every other case: with the private package declared
    the rule is indeterminate, not failed. *)
Theorem notUsingStashGfpEslintConfig_passes_or_nothing (props : gmap string JSValue) :
  notUsingStashGfpEslintConfig (JObject props)
  = Normal (if truthy (section props "devDependencies")
               && negb (declared props "devDependencies" "gfp-eslint-config")
            then JTrue else JUndefined)
  /\ (forall v, entry props "devDependencies" "gfp-eslint-config" = Some v ->
      truthy v = true ->
      notUsingStashGfpEslintConfig (JObject props) = Normal JUndefined).
Proof.
  rewrite eval_notUsingStashGfpEslintConfig, truthy_lookup_chain.
  split; [done|]. intros v He Ht. unfold declared. rewrite He, Ht.
  by rewrite andb_false_r.
Qed.

Lemma notUsingStashGfpEslintConfig_passes_or_nothing_witness :
  notUsingStashGfpEslintConfig
    (obj [("devDependencies",
           obj [("gfp-eslint-config", JString "git+ssh://git@stash/gec.git")])])
  = Normal JUndefined.
Proof.
  destruct (notUsingStashGfpEslintConfig_passes_or_nothing
              (list_to_map
                 [("devDependencies",
                   obj [("gfp-eslint-config", JString "git+ssh://git@stash/gec.git")])]))
    as (_ & H).
  exact (H _ eq_refl eq_refl).
Defined.

(** ** The comparator rules *)

(** X10. The launcher and karma rules hand their literal and the declared
    range to the comparator and return what it completes with, a thrown
    error included: [satisfies] with 1.0.0 for [karma-phantomjs-launcher],
    [ltr] with 1.6.9 for [karma] and with 1.0.9 for [karma-coverage] and
    [karma-jasmine]. *)
Theorem comparator_rules_delegate (semver : Semver)
    (props : gmap string JSValue) (range : JSValue) :
  truthy range = true ->
  (entry props "devDependencies" "karma-phantomjs-launcher" = Some range ->
   shouldUsePhantomjsLauncher1 (JObject props) = satisfies "1.0.0" range)
  /\ (entry props "devDependencies" "karma" = Some range ->
      shouldUseKarma170 (JObject props) = ltr "1.6.9" range)
  /\ (entry props "devDependencies" "karma-coverage" = Some range ->
      shouldUseKarmaCoverage110 (JObject props) = ltr "1.0.9" range)
  /\ (entry props "devDependencies" "karma-jasmine" = Some range ->
      shouldUseKarmaJasmine110 (JObject props) = ltr "1.0.9" range).
Proof.
  intros Ht.
  rewrite eval_shouldUsePhantomjsLauncher1, eval_shouldUseKarma170,
    eval_shouldUseKarmaCoverage110, eval_shouldUseKarmaJasmine110.
  repeat split; intros He; by rewrite (lookup_chain_present _ _ _ _ He), Ht.
Qed.

Lemma comparator_rules_delegate_witness :
  @shouldUseKarma170 semver_ref
    (obj [("devDependencies", obj [("karma", JString "^1.7.0")])])
  = Normal JTrue
  /\ @shouldUseKarmaJasmine110 semver_ref
       (obj [("devDependencies", obj [("karma-jasmine", JString "latest")])])
     = Throw TypeError.
Proof.
  split.
  - destruct (comparator_rules_delegate semver_ref
                (list_to_map [("devDependencies", obj [("karma", JString "^1.7.0")])])
                (JString "^1.7.0")) as (_ & H & _); [reflexivity|].
    exact (H eq_refl).
  - destruct (comparator_rules_delegate semver_ref
                (list_to_map
                   [("devDependencies", obj [("karma-jasmine", JString "latest")])])
                (JString "latest")) as (_ & _ & _ & H); [reflexivity|].
    exact (H eq_refl).
Defined.

(** X11. The two eslint-config-gfp rules apply together: on every object
    document either the rule using eslint-config-gfp passes and the
    version-floor rule is the comparator's verdict on the declared range, or
    both are [undefined]. *)
Theorem eslint_config_gfp_rules_apply_together
    (semver : Semver) (props : gmap string JSValue) :
  (missingEslintConfigGfp (JObject props) = Normal JTrue
   /\ exists range, entry props "devDependencies" "eslint-config-gfp" = Some range
                    /\ shouldUseEslintConfigGfp300 (JObject props) = ltr "2.9.9" range)
  \/ (missingEslintConfigGfp (JObject props) = Normal JUndefined
      /\ shouldUseEslintConfigGfp300 (JObject props) = Normal JUndefined).
Proof.
  rewrite eval_missingEslintConfigGfp, eval_shouldUseEslintConfigGfp300,
    truthy_lookup_chain.
  unfold declared.
  destruct (entry props "devDependencies" "eslint-config-gfp") as [v|] eqn:He;
    [destruct (truthy v) eqn:Ht|]; auto.
  left. split; [done|]. exists v. by rewrite (lookup_chain_present _ _ _ _ He).
Qed.

(** ** The exported function: path, frame and failure *)

(** X12. The path examined: with no [packagePath] option, or a falsy one
    (the empty string too), it is [package.json] under the working directory;
    with a non-empty string it is that string under the working directory;
    a truthy option that is not a string, and options that are [undefined]
    or [null], make the call throw a [TypeError]. *)
Theorem packagePath_fallback (host : Host) (props : gmap string JSValue) :
  (truthy (section props "packagePath") = false ->
   packagePath host (JObject props)
   = Normal (path_join host (cwd host) "package.json"))
  /\ (forall s, props !! "packagePath" = Some (JString s) -> s <> "" ->
      packagePath host (JObject props) = Normal (path_join host (cwd host) s))
  /\ (truthy (section props "packagePath") = true ->
      (forall s, section props "packagePath" <> JString s) ->
      packagePath host (JObject props) = Throw TypeError)
  /\ packagePath host JUndefined = Throw TypeError
  /\ packagePath host JNull = Throw TypeError.
Proof.
  unfold packagePath, js_or. rewrite get_object. simpl.
  split; [|split; [|split; [|split; reflexivity]]].
  - by intros ->.
  - intros s Hs Hne. unfold section. rewrite Hs. simpl.
    destruct (String.eqb_spec s ""); [done|reflexivity].
  - intros -> Hns. destruct (section props "packagePath"); try reflexivity.
    by destruct (Hns s).
Qed.

Lemma packagePath_fallback_witness :
  packagePath host_example (obj [("packagePath", JString "")])
  = Normal "/repo/package.json"
  /\ packagePath host_example options_b = Normal "/repo/b.json"
  /\ packagePath host_example (obj [("packagePath", JBool true)]) = Throw TypeError.
Proof.
  split; [|split].
  - destruct (packagePath_fallback host_example
                (list_to_map [("packagePath", JString "")])) as (H & _).
    exact (H eq_refl).
  - destruct (packagePath_fallback host_example
                (list_to_map [("packagePath", JString "b.json")])) as (_ & H & _).
    apply (H "b.json" eq_refl). discriminate.
  - destruct (packagePath_fallback host_example
                (list_to_map [("packagePath", JBool true)])) as (_ & _ & H & _).
    apply H; [reflexivity|]. intros s. discriminate.
Defined.

(** X13. A run that finds and parses its manifest writes the [rules] field of
    [rulesConf] and nothing else: the object keeps the [name] and the
    [skipped] flag the runner left it with (a flag set by an earlier run is
    not cleared), every other object and the record of invoked predicates
    are as the runner left them, and [addSkipped] plays no part. *)
Theorem examine_writes_rules_only (util : RulesUtil) (host : Host)
    (options json : JSValue) (w w1 : World) (path : string) (rs : list Rule) :
  packagePath host options = Normal path ->
  file host path = Some (Normal json) ->
  processRules rulesConf_loc json options w = (Normal rs, w1) ->
  exists w',
    examine host options w = (Normal rulesConf_loc, w')
    /\ name <$> heap w' !! rulesConf_loc = name <$> heap w1 !! rulesConf_loc
    /\ skipped <$> heap w' !! rulesConf_loc = skipped <$> heap w1 !! rulesConf_loc
    /\ (forall l, l <> rulesConf_loc -> heap w' !! l = heap w1 !! l)
    /\ invoked w' = invoked w1
    /\ forall skip : loc -> M loc,
         @examine {| addSkipped := skip; processRules := processRules |} host options w
         = (Normal rulesConf_loc, w').
Proof.
  intros Hp Hf Hr. exists (assign_rules rulesConf_loc rs w1).
  split; [by apply (examine_present host options json w w1 path rs)|].
  rewrite assign_rules_lookup.
  split; [by destruct (heap w1 !! rulesConf_loc)|].
  split; [by destruct (heap w1 !! rulesConf_loc)|].
  split; [|split; [reflexivity|]].
  - intros l Hl. unfold assign_rules. simpl. by rewrite lookup_alter_ne.
  - intros skip. unfold examine. simpl. by rewrite Hp, Hf, Hr.
Qed.

Lemma examine_writes_rules_only_witness :
  exists w',
    @examine rules_util_spec host_example options_a (@world0 semver_ref)
    = (Normal rulesConf_loc, w')
    /\ name <$> heap w' !! rulesConf_loc = Some "package.json"
    /\ skipped <$> heap w' !! rulesConf_loc = Some false.
Proof.
  set (r1 := processRules_spec rulesConf_loc doc_eslint3 options_a (@world0 semver_ref)).
  destruct (examine_writes_rules_only rules_util_spec host_example options_a
              doc_eslint3 (@world0 semver_ref) (snd r1) "/repo/a.json"
              (rules_of (fst r1)))
    as (w' & H & Hn & Hs & _); try reflexivity.
  exists w'. split; [exact H|]. split; [rewrite Hn | rewrite Hs]; reflexivity.
Defined.

(** X14. The exported function adds no failure of its own after it has
    resolved the path: when a call throws, either the world is as it was
    before the call (the options were unusable, or the manifest could not be
    read or parsed), or the error and the world are those [addSkipped] ended
    with on a missing manifest, or those [processRules] ended with on the
    parsed one; in that last case [rulesConf.rules] has not been assigned. *)
Theorem examine_failure (util : RulesUtil) (host : Host)
    (options : JSValue) (w w' : World) (e : Error) :
  examine host options w = (Throw e, w') ->
  (w' = w
   /\ (packagePath host options = Throw e
       \/ exists path, packagePath host options = Normal path
                       /\ file host path = Some (Throw e)))
  \/ (exists path, packagePath host options = Normal path
                   /\ file host path = None
                   /\ addSkipped rulesConf_loc w = (Throw e, w'))
  \/ (exists path json, packagePath host options = Normal path
                        /\ file host path = Some (Normal json)
                        /\ processRules rulesConf_loc json options w = (Throw e, w')).
Proof.
  unfold examine.
  destruct (packagePath host options) as [path|e0] eqn:Hp.
  - destruct (file host path) as [[json|e1]|] eqn:Hf.
    + destruct (processRules rulesConf_loc json options w) as [[rs|e2] w2] eqn:Hr;
        [discriminate|].
      intros H. injection H as <- <-. right. right. by exists path, json.
    + intros H. injection H as <- <-. left. split; [done|]. right. by exists path.
    + intros H. right. left. by exists path.
  - intros H. injection H as <- <-. left. split; [done|]. by left.
Qed.

Lemma examine_failure_witness :
  (@world0 semver_ref = @world0 semver_ref
   /\ (packagePath host_malformed options_none = Throw SyntaxError
       \/ exists path, packagePath host_malformed options_none = Normal path
                       /\ file host_malformed path = Some (Throw SyntaxError)))
  \/ (exists path, packagePath host_malformed options_none = Normal path
                   /\ file host_malformed path = None
                   /\ addSkipped_spec rulesConf_loc (@world0 semver_ref)
                      = (Throw SyntaxError, @world0 semver_ref))
  \/ (exists path json, packagePath host_malformed options_none = Normal path
                        /\ file host_malformed path = Some (Normal json)
                        /\ processRules_spec rulesConf_loc json options_none
                             (@world0 semver_ref)
                           = (Throw SyntaxError, @world0 semver_ref)).
Proof.
  exact (examine_failure rules_util_spec host_malformed options_none
           (@world0 semver_ref) (@world0 semver_ref) SyntaxError eq_refl).
Defined.

Lemma notUsingStashAngularModuleNoDeps_unguarded_witness :
  notUsingStashAngularModuleNoDeps (obj [("devDependencies", JNull)]) = Throw TypeError.
Proof.
  apply (notUsingStashAngularModuleNoDeps_unguarded
           (list_to_map [("devDependencies", JNull)])).
  reflexivity.
Defined.
